(** * Risk engine of SolyforTrenchers: scorer and rug-pattern detector

    Shallow embedding of

    - [calculate_risk_score] (src/utils/helpers.py, lines 28-76) and
    - [TokenAnalyzer.detect_rug_patterns] (src/ai/analyzer.py, lines 184-221)

    together with the properties the specification states about them.

    Python dictionaries are finite maps from strings to Python values
    ([gmap string value]); [d.get(k, dflt)] is a lookup with a default.
    The floats the code itself produces (the score, the confidence) are
    IEEE binary64 values ([PrimFloat.float]) and are computed with the
    machine operations.

    The scorer only compares the numbers it receives with integer
    constants, and Python compares an [int] and a [float] by their
    mathematical value: there a number is what it is worth, a rational or
    one of the two infinities or NaN ([PyNum.num]).  The detector adds the
    [amount]s up, and there the kind of number matters: [int]s (and
    [Fraction]s) are added exactly, [float]s in binary64 with a rounding
    after each addition, and an [int] met in a float sum is first converted
    to a float, which raises [OverflowError] when it is too large.
    [sum] is modelled as CPython up to 3.11 computes it, one addition per
    item from left to right; the compensation term that CPython 3.12 and
    later carry through a run of floats is not modelled. *)

From Stdlib Require Import ZArith QArith Floats.
From stdpp Require Import base option list gmap strings.

Open Scope string_scope.

(* Decimal literals such as 0.3 denote the nearest binary64 value, as in
   Python. *)
Set Warnings "-inexact-float".

(** ** Python numbers *)

Module PyNum.

Inductive num : Type :=
| Fin (q : Q)
| PInf
| NInf
| NaN.

Definition of_Z (z : Z) : num := Fin (inject_Z z).

(** [a < b]; every comparison with NaN is false. *)
Definition ltb (a b : num) : bool :=
  match a, b with
  | NaN, _ | _, NaN => false
  | Fin x, Fin y => negb (Qle_bool y x)
  | Fin _, PInf => true
  | NInf, Fin _ => true
  | NInf, PInf => true
  | _, _ => false
  end.

(** [a <= b]. *)
Definition leb (a b : num) : bool :=
  match a, b with
  | NaN, _ | _, NaN => false
  | Fin x, Fin y => Qle_bool x y
  | _, PInf => true
  | NInf, _ => true
  | _, _ => false
  end.

(** [bool(a)]: zero is falsy, everything else (NaN included) truthy. *)
Definition nonzero (a : num) : bool :=
  match a with
  | Fin q => negb (Qeq_bool q 0)
  | _ => true
  end.

End PyNum.

Import PyNum.

(** What a binary64 float is worth. *)
Definition float_value (f : float) : num :=
  match Prim2SF f with
  | S754_zero _ => Fin 0
  | S754_infinity false => PInf
  | S754_infinity true => NInf
  | S754_nan => NaN
  | S754_finite s m e =>
      let q := match e with
               | Z0 => inject_Z (Zpos m)
               | Zpos p => inject_Z (Zpos m * Z.pow_pos 2 p)
               | Zneg p => Qmake (Zpos m) (Pos.pow 2 p)
               end in
      Fin (if s then Qopp q else q)
  end.

(** ** Python values and exceptions

    [VNum x] is a number given by what it is worth.  Where numbers are only
    compared this covers every [int] and [float].  In an addition a finite
    [x] is an exact number (an [int], or a [Fraction] when [x] is not
    whole) and the three special values are the floats [inf], [-inf] and
    [nan]; a float whose rounding matters is a [VFloat]. *)

Inductive value : Type :=
| VNone
| VBool (b : bool)
| VNum (x : num)
| VStr (s : string)
| VFloat (f : float).

Inductive exn : Type :=
| TypeError
| OverflowError.

Inductive result (A : Type) : Type :=
| Ok (a : A)
| Raise (e : exn).

Arguments Ok {A} a.
Arguments Raise {A} e.

#[global] Instance result_ret : MRet result := fun A a => Ok a.
#[global] Instance result_bind : MBind result := fun A B k m =>
  match m with
  | Ok a => k a
  | Raise e => Raise e
  end.

(** Truth value of a Python object, as used by [not v]. *)
Definition truthy (v : value) : bool :=
  match v with
  | VNone => false
  | VBool b => b
  | VNum x => nonzero x
  | VStr s => negb (String.eqb s "")
  | VFloat f => nonzero (float_value f)
  end.

(** What a value is worth in a comparison with a number; [bool] is a
    subtype of [int].  [None] and strings raise. *)
Definition as_num (v : value) : result num :=
  match v with
  | VBool b => Ok (of_Z (if b then 1 else 0))
  | VNum x => Ok x
  | VFloat f => Ok (float_value f)
  | VNone | VStr _ => Raise TypeError
  end.

(** [v < c] and [v > c] for an integer literal [c]. *)
Definition py_lt (v : value) (c : Z) : result bool :=
  x ← as_num v; Ok (ltb x (of_Z c)).

Definition py_gt (v : value) (c : Z) : result bool :=
  x ← as_num v; Ok (ltb (of_Z c) x).

(** [d.get(k, dflt)]. *)
Definition dict_get (d : gmap string value) (k : string) (dflt : value) : value :=
  default dflt (d !! k).

(** The built-in [min(a, b)] on two floats: the first argument is kept
    unless the second is strictly smaller. *)
Definition py_min (a b : float) : float :=
  if PrimFloat.ltb b a then b else a.

(** [float(n)] for a small non-negative integer (exact below 2^53). *)
Definition Z2F (n : Z) : float := PrimFloat.of_uint63 (Uint63.of_Z n).

(** ** The scorer: [calculate_risk_score] *)

(** [if not factors.get(key, False): score += p] *)
Definition flag_block (flag : value) (p : float) (score : float) : float :=
  if negb (truthy flag) then (score + p)%float else score.

(** helpers.py lines 45-48 *)
Definition holder_block (holder_count : value) (score : float) : result float :=
  c1 ← py_lt holder_count 50;
  if c1 : bool then Ok (score + 15)%float
  else
    c2 ← py_lt holder_count 100;
    if c2 : bool then Ok (score + 10)%float else Ok score.

(** helpers.py lines 52-57 *)
Definition top10_block (top_10_pct : value) (score : float) : result float :=
  c1 ← py_gt top_10_pct 80;
  if c1 : bool then Ok (score + 20)%float
  else
    c2 ← py_gt top_10_pct 60;
    if c2 : bool then Ok (score + 15)%float
    else
      c3 ← py_gt top_10_pct 40;
      if c3 : bool then Ok (score + 10)%float else Ok score.

(** helpers.py lines 61-64 *)
Definition dev_block (dev_holdings_pct : value) (score : float) : result float :=
  c1 ← py_gt dev_holdings_pct 20;
  if c1 : bool then Ok (score + 15)%float
  else
    c2 ← py_gt dev_holdings_pct 10;
    if c2 : bool then Ok (score + 10)%float else Ok score.

(** helpers.py lines 72-73 *)
Definition liquidity_block (liquidity_usd : value) (score : float) : result float :=
  c1 ← py_lt liquidity_usd 5000;
  if c1 : bool then Ok (score + 10)%float else Ok score.

(** The value of [score] when line 76 is reached. *)
Definition penalty_sum (factors : gmap string value) : result float :=
  let score := 0%float in
  let score :=
    flag_block (dict_get factors "mint_authority_revoked" (VBool false)) 30 score in
  let score :=
    flag_block (dict_get factors "freeze_authority_revoked" (VBool false)) 20 score in
  let holder_count := dict_get factors "holder_count" (VNum (of_Z 0)) in
  score ← holder_block holder_count score;
  let top_10_pct := dict_get factors "top_10_holdings_pct" (VNum (of_Z 0)) in
  score ← top10_block top_10_pct score;
  let dev_holdings_pct := dict_get factors "dev_holdings_pct" (VNum (of_Z 0)) in
  score ← dev_block dev_holdings_pct score;
  let score :=
    flag_block (dict_get factors "liquidity_locked" (VBool false)) 20 score in
  let liquidity_usd := dict_get factors "liquidity_usd" (VNum (of_Z 0)) in
  score ← liquidity_block liquidity_usd score;
  Ok score.

Definition calculate_risk_score (factors : gmap string value) : result float :=
  score ← penalty_sum factors;
  Ok (py_min score 100).


(** *** The typed input of the specification

    The specification describes the input as a record [RiskFactors]; the
    code receives it as a dictionary.  [to_dict] stores every field under
    the key the code reads (the specification's [top10_holdings_pct] is
    the code's ['top_10_holdings_pct']). *)

Record RiskFactors : Type := mkRiskFactors {
  mint_authority_revoked : bool;
  freeze_authority_revoked : bool;
  holder_count : Z;
  top10_holdings_pct : Q;
  dev_holdings_pct : Q;
  liquidity_locked : bool;
  liquidity_usd : Q
}.

Definition to_dict (r : RiskFactors) : gmap string value :=
  <["mint_authority_revoked" := VBool (mint_authority_revoked r)]>
  (<["freeze_authority_revoked" := VBool (freeze_authority_revoked r)]>
  (<["holder_count" := VNum (of_Z (holder_count r))]>
  (<["top_10_holdings_pct" := VNum (Fin (top10_holdings_pct r))]>
  (<["dev_holdings_pct" := VNum (Fin (dev_holdings_pct r))]>
  (<["liquidity_locked" := VBool (liquidity_locked r)]>
  (<["liquidity_usd" := VNum (Fin (liquidity_usd r))]> ∅)))))).

(** The ranges the specification gives for the numeric fields. *)
Definition in_spec_ranges (r : RiskFactors) : Prop :=
  (0 <= holder_count r)%Z /\
  (0 <= top10_holdings_pct r <= 100)%Q /\
  (0 <= dev_holdings_pct r <= 100)%Q /\
  (0 <= liquidity_usd r)%Q.

(** The penalty table of the specification: eleven rows, each a condition
    and a penalty; the penalties of the rows whose condition holds are
    summed and the sum is capped at 100. *)
Module SpecTable.

Definition row (condition : bool) (penalty : Z) : Z :=
  if condition then penalty else 0%Z.

Definition Qlt_bool (a b : Q) : bool := negb (Qle_bool b a).

Definition sum_of_penalties (r : RiskFactors) : Z :=
  let h := holder_count r in
  let t := top10_holdings_pct r in
  let d := dev_holdings_pct r in
  let l := liquidity_usd r in
  (row (negb (mint_authority_revoked r)) 30
   + row (negb (freeze_authority_revoked r)) 20
   + row (h <? 50) 15
   + row ((50 <=? h) && (h <? 100)) 10
   + row (Qlt_bool 80 t) 20
   + row (Qlt_bool 60 t && Qle_bool t 80) 15
   + row (Qlt_bool 40 t && Qle_bool t 60) 10
   + row (Qlt_bool 20 d) 15
   + row (Qlt_bool 10 d && Qle_bool d 20) 10
   + row (negb (liquidity_locked r)) 20
   + row (Qlt_bool l 5000) 10)%Z.

Definition score (r : RiskFactors) : Z := Z.min (sum_of_penalties r) 100.

End SpecTable.

Definition all_clean : RiskFactors :=
  mkRiskFactors true true 1000 10 2 true 100000.

Definition all_bad : RiskFactors :=
  mkRiskFactors false false 10 95 30 false 100.

(** ** The pattern detector: [detect_rug_patterns] *)

Inductive RiskLevel : Type := LOW | MEDIUM | HIGH.

Definition level_rank (l : RiskLevel) : nat :=
  match l with LOW => 0 | MEDIUM => 1 | HIGH => 2 end.

(** The dictionary [patterns] the function builds, mutates and returns. *)
Record Verdict : Type := mkVerdict {
  is_suspicious : bool;
  risk_level : RiskLevel;
  detected_patterns : list string;
  confidence : float
}.

Definition dev_sell_pattern : string := "Multiple dev wallet sells detected".
Definition lp_remove_pattern : string := "Significant liquidity removal".

(** analyzer.py lines 187-192 *)
Definition initial_patterns : Verdict :=
  mkVerdict false LOW [] 0%float.

(** Statements of the [try] body: they update [patterns] in place and may
    raise; the state reached when an exception is raised is kept. *)
Definition stmt (A : Type) : Type := Verdict -> Verdict * result A.

#[global] Instance stmt_ret : MRet stmt := fun A a p => (p, Ok a).
#[global] Instance stmt_bind : MBind stmt := fun A B k m p =>
  match m p with
  | (p', Ok a) => k a p'
  | (p', Raise e) => (p', Raise e)
  end.

Definition lift {A : Type} (r : result A) : stmt A := fun p => (p, r).

Definition skip : stmt unit := mret tt.

(** [patterns["detected_patterns"].append(name)] *)
Definition append_pattern (name : string) : stmt unit := fun p =>
  (mkVerdict (is_suspicious p) (risk_level p)
             (detected_patterns p ++ [name]) (confidence p), Ok tt).

(** [patterns["risk_level"] = l] *)
Definition set_risk_level (l : RiskLevel) : stmt unit := fun p =>
  (mkVerdict (is_suspicious p) l (detected_patterns p) (confidence p), Ok tt).

(** [patterns["is_suspicious"] = b] *)
Definition set_is_suspicious (b : bool) : stmt unit := fun p =>
  (mkVerdict b (risk_level p) (detected_patterns p) (confidence p), Ok tt).

(** [patterns["confidence"] = c] *)
Definition set_confidence (c : float) : stmt unit := fun p =>
  (mkVerdict (is_suspicious p) (risk_level p) (detected_patterns p) c, Ok tt).

(** [len(patterns["detected_patterns"])] *)
Definition count_patterns : stmt nat := fun p =>
  (p, Ok (length (detected_patterns p))).

(** [try: body except Exception: (log)]: the exception is swallowed, the
    updates made before it stay. *)
Definition try_except (body : stmt unit) : stmt unit := fun p =>
  match body p with
  | (p', Ok tt) => (p', Ok tt)
  | (p', Raise _) => (p', Ok tt)
  end.

(** [tx.get('type') == ty] *)
Definition has_type (ty : string) (tx : gmap string value) : bool :=
  match tx !! "type" with
  | Some (VStr s) => String.eqb s ty
  | _ => false
  end.

(** *** Addition

    A number in an addition: exact ([int], [bool], [Fraction]) or a
    binary64 float. *)
Inductive addend : Type :=
| Exact (q : Q)
| Binary (f : float).

Definition addend_value (t : addend) : num :=
  match t with
  | Exact q => Fin q
  | Binary f => float_value f
  end.

Definition as_addend (v : value) : result addend :=
  match v with
  | VBool b => Ok (Exact (inject_Z (if b then 1 else 0)))
  | VNum (Fin q) => Ok (Exact q)
  | VNum PInf => Ok (Binary infinity)
  | VNum NInf => Ok (Binary neg_infinity)
  | VNum NaN => Ok (Binary nan)
  | VFloat f => Ok (Binary f)
  | VNone | VStr _ => Raise TypeError
  end.

(** [float(q)] for an exact number: the nearest binary64 value, ties to
    even ([int.__float__], and [numerator / denominator] for a
    [Fraction]); [OverflowError] when that is beyond the largest float. *)
Definition exact_to_SF (q : Q) : spec_float :=
  match Qden q with
  | xH => binary_normalize prec emax (Qnum q) 0 false
  | d =>
      match Qnum q with
      | Z0 => S754_zero false
      | Zpos n =>
          let '(m, e, l) := SFdiv_core_binary prec emax (Zpos n) 0 (Zpos d) 0 in
          binary_round_aux prec emax false m e l
      | Zneg n =>
          let '(m, e, l) := SFdiv_core_binary prec emax (Zpos n) 0 (Zpos d) 0 in
          binary_round_aux prec emax true m e l
      end
  end.

Definition exact_to_float (q : Q) : result float :=
  match exact_to_SF q with
  | S754_infinity _ => Raise OverflowError
  | x => Ok (SF2Prim x)
  end.

(** [a + b]: exact numbers are added exactly; as soon as one side is a
    float the other is converted and the two floats are added in
    binary64. *)
Definition py_add (a b : addend) : result addend :=
  match a, b with
  | Exact x, Exact y => Ok (Exact (x + y))
  | Exact x, Binary g => f ← exact_to_float x; Ok (Binary (f + g)%float)
  | Binary f, Exact y => g ← exact_to_float y; Ok (Binary (f + g)%float)
  | Binary f, Binary g => Ok (Binary (f + g)%float)
  end.

(** [sum(...)]: the items are added to the integer 0 from left to right. *)
Fixpoint py_sum_from (acc : addend) (items : list value) : result addend :=
  match items with
  | [] => Ok acc
  | v :: rest =>
      x ← as_addend v;
      acc' ← py_add acc x;
      py_sum_from acc' rest
  end.

Definition py_sum (items : list value) : result addend :=
  py_sum_from (Exact 0) items.

(** analyzer.py lines 201-216 *)
Definition try_body (transaction_history : list (gmap string value)) : stmt unit :=
  let dev_sells := List.filter (has_type "dev_sell") transaction_history in
  let lp_removes := List.filter (has_type "lp_remove") transaction_history in
  (if (3 <? length dev_sells)%nat then
     append_pattern dev_sell_pattern;;
     set_risk_level MEDIUM
   else skip);;
  (if (0 <? length lp_removes)%nat then
     total_removed ←
       lift (py_sum (map (fun tx => dict_get tx "amount" (VNum (of_Z 0))) lp_removes));
     if ltb (of_Z 50) (addend_value total_removed) then
       append_pattern lp_remove_pattern;;
       set_risk_level HIGH;;
       set_is_suspicious true
     else skip
   else skip);;
  n ← count_patterns;
  set_confidence (py_min (Z2F (Z.of_nat n) * 0.3)%float 1%float).

(** The whole function: it returns a verdict or propagates an exception.
    The coroutine awaits nothing, so it is modelled as a plain function;
    the handler's only action besides swallowing the exception is a log
    line, which is not modelled.  The elements of the history are
    dictionaries, as the annotation [List[Dict]] says. *)
Definition detect_rug_patterns (transaction_history : list (gmap string value))
  : result Verdict :=
  match try_except (try_body transaction_history) initial_patterns with
  | (patterns, Ok tt) => Ok patterns
  | (_, Raise e) => Raise e
  end.

(** *** Typed transaction records of the specification *)

Definition record (kind : string) (amount : Z) : gmap string value :=
  <["type" := VStr kind]> (<["amount" := VNum (of_Z amount)]> ∅).

(** A record whose amount is a float. *)
Definition float_record (kind : string) (amount : float) : gmap string value :=
  <["type" := VStr kind]> (<["amount" := VFloat amount]> ∅).

(** The records the detector looks at. *)
Definition relevant (t : gmap string value) : bool :=
  has_type "dev_sell" t || has_type "lp_remove" t.

(** The amount of a record as a number: absent counts as 0, a [bool] as
    the integer it is; [None] where the amount is not a number. *)
Definition amount_of (t : gmap string value) : option num :=
  match as_num (dict_get t "amount" (VNum (of_Z 0))) with
  | Ok x => Some x
  | Raise _ => None
  end.

(** Every [lp_remove] record carries a numeric amount (or none). *)
Definition numeric_amounts (h : list (gmap string value)) : bool :=
  forallb (fun t => implb (has_type "lp_remove" t) (bool_decide (is_Some (amount_of t)))) h.

(** Number of [dev_sell] records and sum of the [lp_remove] amounts, as the
    specification's step 1 defines them. *)
Definition dev_sell_count (h : list (gmap string value)) : nat :=
  length (List.filter (has_type "dev_sell") h).



(** The amount of a record when it is an [int]: absent counts as 0, a
    [bool] as the integer it is. *)
Definition int_amount_of (t : gmap string value) : option Z :=
  match dict_get t "amount" (VNum (of_Z 0)) with
  | VBool b => Some (if b then 1 else 0)%Z
  | VNum (Fin q) =>
      match Qden q with
      | xH => Some (Qnum q)
      | _ => None
      end
  | _ => None
  end.

(** Every [lp_remove] record carries an [int] amount (or none). *)
Definition int_amounts (h : list (gmap string value)) : bool :=
  forallb (fun t => implb (has_type "lp_remove" t)
                          (bool_decide (is_Some (int_amount_of t)))) h.

(** The sum of the [lp_remove] amounts of such a history, as an integer. *)
Definition int_total (h : list (gmap string value)) : Z :=
  fold_right Z.add 0%Z
    (map (fun t => default 0%Z (int_amount_of t))
         (List.filter (has_type "lp_remove") h)).

(** ** Auxiliary definitions for the statements *)

(** The keys whose values the scorer compares with numbers. *)
Definition numeric_keys : list string :=
  ["holder_count"; "top_10_holdings_pct"; "dev_holdings_pct"; "liquidity_usd"].

Definition is_numeric (v : value) : bool :=
  match as_num v with
  | Ok _ => true
  | Raise _ => false
  end.

(** A numeric input: each numeric field is absent or holds a number. *)
Definition numeric_input (factors : gmap string value) : bool :=
  forallb (fun k => match factors !! k with
                    | Some v => is_numeric v
                    | None => true
                    end) numeric_keys.

Definition num_of (v : value) : num :=
  match as_num v with
  | Ok x => x
  | Raise _ => NaN
  end.

(** The penalty each block of the scorer adds, as an integer. *)
Module Tier.

Definition flag (v : value) (p : Z) : Z :=
  if negb (truthy v) then p else 0%Z.

Definition holder (x : num) : Z :=
  if ltb x (of_Z 50) then 15%Z
  else if ltb x (of_Z 100) then 10%Z else 0%Z.

Definition top10 (x : num) : Z :=
  if ltb (of_Z 80) x then 20%Z
  else if ltb (of_Z 60) x then 15%Z
  else if ltb (of_Z 40) x then 10%Z else 0%Z.

Definition dev (x : num) : Z :=
  if ltb (of_Z 20) x then 15%Z
  else if ltb (of_Z 10) x then 10%Z else 0%Z.

Definition liquidity (x : num) : Z :=
  if ltb x (of_Z 5000) then 10%Z else 0%Z.

Definition total (factors : gmap string value) : Z :=
  (flag (dict_get factors "mint_authority_revoked" (VBool false)) 30
   + flag (dict_get factors "freeze_authority_revoked" (VBool false)) 20
   + holder (num_of (dict_get factors "holder_count" (VNum (of_Z 0))))
   + top10 (num_of (dict_get factors "top_10_holdings_pct" (VNum (of_Z 0))))
   + dev (num_of (dict_get factors "dev_holdings_pct" (VNum (of_Z 0))))
   + flag (dict_get factors "liquidity_locked" (VBool false)) 20
   + liquidity (num_of (dict_get factors "liquidity_usd" (VNum (of_Z 0)))))%Z.

End Tier.

(** [0; 1; ...; k-1], for facts checked value by value. *)
Definition upto (k : nat) : list Z := map Z.of_nat (seq 0 k).

(** A block leaves the score alone or adds one penalty to it. *)
Definition add_tier (p : option float) (score : float) : float :=
  match p with
  | None => score
  | Some p => (score + p)%float
  end.

(** [one_field_riskier safer riskier]: the two inputs agree on every field
    but one, which has moved in the direction that increases risk. *)
Inductive one_field_riskier : RiskFactors -> RiskFactors -> Prop :=
| Riskier_mint f h t d l u :
    one_field_riskier (mkRiskFactors true f h t d l u)
                      (mkRiskFactors false f h t d l u)
| Riskier_freeze m h t d l u :
    one_field_riskier (mkRiskFactors m true h t d l u)
                      (mkRiskFactors m false h t d l u)
| Riskier_holder m f h h' t d l u :
    (h' < h)%Z ->
    one_field_riskier (mkRiskFactors m f h t d l u)
                      (mkRiskFactors m f h' t d l u)
| Riskier_top10 m f h t t' d l u :
    (t < t')%Q ->
    one_field_riskier (mkRiskFactors m f h t d l u)
                      (mkRiskFactors m f h t' d l u)
| Riskier_dev m f h t d d' l u :
    (d < d')%Q ->
    one_field_riskier (mkRiskFactors m f h t d l u)
                      (mkRiskFactors m f h t d' l u)
| Riskier_lock m f h t d u :
    one_field_riskier (mkRiskFactors m f h t d true u)
                      (mkRiskFactors m f h t d false u)
| Riskier_liquidity m f h t d l u u' :
    (u' < u)%Q ->
    one_field_riskier (mkRiskFactors m f h t d l u)
                      (mkRiskFactors m f h t d l u').

(** Field by field, [b] is at least as risky as [a]. *)
Definition riskier_or_equal (a b : RiskFactors) : Prop :=
  (mint_authority_revoked b = true -> mint_authority_revoked a = true) /\
  (freeze_authority_revoked b = true -> freeze_authority_revoked a = true) /\
  (holder_count b <= holder_count a)%Z /\
  (top10_holdings_pct a <= top10_holdings_pct b)%Q /\
  (dev_holdings_pct a <= dev_holdings_pct b)%Q /\
  (liquidity_locked b = true -> liquidity_locked a = true) /\
  (liquidity_usd b <= liquidity_usd a)%Q.

(** The verdict reached when the [try] body runs to its end: [dev] and
    [lp] say whether the dev-sell and the liquidity pattern fired. *)
Definition verdict_of (dev lp : bool) : Verdict :=
  let detected :=
    ((if dev then [dev_sell_pattern] else [])
     ++ (if lp then [lp_remove_pattern] else []))%list in
  mkVerdict lp
            (if lp then HIGH else if dev then MEDIUM else LOW)
            detected
            (py_min (Z2F (Z.of_nat (length detected)) * 0.3)%float 1%float).

(** The verdict left behind when adding up the amounts raises: the update
    of the dev-sell step stays, the confidence is never assigned. *)
Definition interrupted_verdict (dev : bool) : Verdict :=
  mkVerdict false
            (if dev then MEDIUM else LOW)
            (if dev then [dev_sell_pattern] else [])
            0%float.

(** [amount] as the code reads it. *)
Definition get_amount (t : gmap string value) : value :=
  dict_get t "amount" (VNum (of_Z 0)).

(** [total_removed] as the code computes it (line 209), or the exception
    that computing it raises. *)
Definition lp_remove_sum (h : list (gmap string value)) : result addend :=
  py_sum (map get_amount (List.filter (has_type "lp_remove") h)).

(** Closes a goal about one of the concrete verdicts above. *)
Ltac verdict_facts :=
  unfold verdict_of, interrupted_verdict; cbv zeta;
  cbn [is_suspicious risk_level detected_patterns confidence app length
       level_rank In];
  assert (dev_sell_pattern <> lp_remove_pattern) by discriminate;
  repeat split; intros;
  repeat match goal with
         | H : _ /\ _ |- _ => destruct H
         | H : _ \/ _ |- _ => destruct H
         | H : False |- _ => destruct H
         end;
  try reflexivity; try discriminate; try congruence; try lia; try tauto.

(** ** Other helpers of src/utils/helpers.py *)

(** *** Built-ins they use: slices, [range], [str.split], [str.join]

    A Python string is a sequence of characters and [len] counts them; the
    helpers below never look inside a character, so the character type is
    left open.  A slice bound is brought into [0, len]: a negative bound
    counts from the end. *)

Definition slice_bound (len i : Z) : Z :=
  if (i <? 0)%Z then Z.max (i + len) 0 else Z.min i len.

(** [l[start:stop]]; [None] is an omitted bound. *)
Definition py_slice {A : Type} (l : list A) (start stop : option Z) : list A :=
  let len := Z.of_nat (length l) in
  let lo := match start with
            | None => 0%Z
            | Some i => slice_bound len i
            end in
  let hi := match stop with
            | None => len
            | Some j => slice_bound len j
            end in
  take (Z.to_nat (hi - lo)) (drop (Z.to_nat lo) l).

Inductive value_error : Type :=
| ValueError.

(** [range(start, stop, step)] as the list of its elements; a zero step
    raises [ValueError]. *)
Definition py_range (start stop step : Z) : value_error + list Z :=
  if (step =? 0)%Z then inl ValueError
  else
    let n :=
      if (0 <? step)%Z then
        if (start <? stop)%Z then (1 + (stop - 1 - start) / step)%Z else 0%Z
      else
        if (stop <? start)%Z then (1 + (start - 1 - stop) / (- step))%Z else 0%Z in
    inr (map (fun k => (start + Z.of_nat k * step)%Z) (seq 0 (Z.to_nat n))).

Section Text.

Context {char : Type}.

(** The characters [str.split()] treats as whitespace, the space that
    [' '.join] inserts and the dot of ["..."]. *)
Variable is_space : char -> bool.
Variable sp : char.
Variable dot : char.

Definition dots : list char := [dot; dot; dot].

(** [text.split()]: the maximal runs of non-whitespace characters, in
    order; [word] is the run being read. *)
Fixpoint split_from (word text : list char) : list (list char) :=
  match text with
  | [] => match word with
          | [] => []
          | _ => [word]
          end
  | c :: rest =>
      if is_space c then
        match word with
        | [] => split_from [] rest
        | _ => word :: split_from [] rest
        end
      else split_from (word ++ [c])%list rest
  end.

Definition py_split (text : list char) : list (list char) :=
  split_from [] text.

(** [sep.join(words)] *)
Fixpoint py_join (sep : list char) (words : list (list char)) : list char :=
  match words with
  | [] => []
  | [w] => w
  | w :: rest => (w ++ sep ++ py_join sep rest)%list
  end.

(** helpers.py lines 21-25 *)
Definition shorten_address (address : list char) (chars : Z) : list char :=
  if (Z.of_nat (length address) <=? chars * 2)%Z then address
  else (py_slice address None (Some chars)
        ++ dots
        ++ py_slice address (Some (- chars)%Z) None)%list.

(** helpers.py lines 135-144 *)
Definition sanitize_text_for_tweet (text : list char) (max_length : Z) : list char :=
  let text := py_join [sp] (py_split text) in
  if (max_length <? Z.of_nat (length text))%Z then
    (py_slice text None (Some (max_length - 3)%Z) ++ dots)%list
  else text.

(** A word as [split] produces them: not empty, no whitespace inside. *)
Definition is_word (w : list char) : bool :=
  negb (Nat.eqb (length w) 0) && forallb (fun c => negb (is_space c)) w.

End Text.

(** helpers.py line 194 *)
Definition batch_list {A : Type} (items : list A) (batch_size : Z)
  : value_error + list (list A) :=
  match py_range 0 (Z.of_nat (length items)) batch_size with
  | inl e => inl e
  | inr starts =>
      inr (map (fun i => py_slice items (Some i) (Some (i + batch_size)%Z)) starts)
  end.

(** helpers.py lines 170-177; the three emoji are UTF-8 strings. *)
Definition get_risk_emoji (risk_score : float) : string :=
  if PrimFloat.ltb risk_score 30 then "🟢"
  else if PrimFloat.ltb risk_score 70 then "🟡"
  else "🔴".

(** Severity of an emoji, for comparisons. *)
Definition emoji_rank (e : string) : nat :=
  if String.eqb e "🟢" then 0
  else if String.eqb e "🟡" then 1
  else 2.

(** *** [extract_twitter_handle]

    [re.search(r'@(\w{1,15})', text)] tries the positions of [text] from
    left to right.  At a position the pattern matches when the character is
    ['@'] and the next one is a word character; the greedy [\w{1,15}] then
    takes the longest run of word characters, 15 at most, and nothing
    follows it in the pattern, so no shorter run is ever tried.  [is_at]
    recognises ['@'] and [is_word_char] the class [\w]. *)

Section Handle.

Context {char : Type}.
Variable is_at : char -> bool.
Variable is_word_char : char -> bool.

(** The longest prefix of word characters, [n] at most. *)
Fixpoint word_run (n : nat) (text : list char) : list char :=
  match n, text with
  | S n, c :: rest => if is_word_char c then c :: word_run n rest else []
  | _, _ => []
  end.

(** helpers.py lines 98-101: group 1 of the leftmost match, or [None]. *)
Fixpoint extract_twitter_handle (text : list char) : option (list char) :=
  match text with
  | [] => None
  | c :: rest =>
      if is_at c then
        match word_run 15 rest with
        | [] => extract_twitter_handle rest
        | handle => Some handle
        end
      else extract_twitter_handle rest
  end.

(** A text without a match: no ['@'] is directly followed by a word
    character. *)
Definition no_handle (text : list char) : Prop :=
  forall (pre : list char) (a c : char) (post : list char),
    text = (pre ++ a :: c :: post)%list ->
    is_at a = true -> is_word_char c = false.

End Handle.

(** An instance for texts of characters below 256: the dot, the space
    and [str.isspace] on these characters. *)
Definition ascii_dot : Ascii.ascii := Ascii.ascii_of_nat 46.
Definition ascii_space : Ascii.ascii := Ascii.ascii_of_nat 32.

Definition ascii_is_space (c : Ascii.ascii) : bool :=
  let n := Ascii.nat_of_ascii c in
  ((9 <=? n) && (n <=? 13) || (28 <=? n) && (n <=? 32)
   || (n =? 133) || (n =? 160))%nat.

Definition ascii_is_at (c : Ascii.ascii) : bool :=
  (Ascii.nat_of_ascii c =? 64)%nat.

(** [\w] on characters below 256: what [str.isalnum] accepts, and the
    underscore. *)
Definition ascii_is_word_char (c : Ascii.ascii) : bool :=
  let n := Ascii.nat_of_ascii c in
  ((48 <=? n) && (n <=? 57) || (65 <=? n) && (n <=? 90)
   || (97 <=? n) && (n <=? 122) || (n =? 95)
   || (n =? 170) || (n =? 178) || (n =? 179) || (n =? 181) || (n =? 185)
   || (n =? 186) || (188 <=? n) && (n <=? 190)
   || (192 <=? n) && (n <=? 214) || (216 <=? n) && (n <=? 246)
   || (248 <=? n) && (n <=? 255))%nat.

Definition chars_of (s : string) : list Ascii.ascii := String.list_ascii_of_string s.

(** The seven keys the scorer reads. *)
Definition scorer_keys : list string :=
  ["mint_authority_revoked"; "freeze_authority_revoked"; "holder_count";
   "top_10_holdings_pct"; "dev_holdings_pct"; "liquidity_locked";
   "liquidity_usd"].

(** * Properties *)

(** ** Floats that are small integers *)

Lemma upto_forallb (P : Z -> bool) (k : nat) (n : Z) :
  forallb P (upto k) = true -> (0 <= n < Z.of_nat k)%Z -> P n = true.
Proof.
  intros Hall Hn.
  rewrite forallb_forall in Hall. apply Hall.
  unfold upto. apply in_map_iff. exists (Z.to_nat n). split; [lia|].
  apply in_seq. lia.
Qed.

Lemma upto_Forall (P : Z -> Prop) (k : nat) (n : Z) :
  List.Forall P (upto k) -> (0 <= n < Z.of_nat k)%Z -> P n.
Proof.
  intros Hall Hn.
  rewrite List.Forall_forall in Hall. apply Hall.
  unfold upto. apply in_map_iff. exists (Z.to_nat n). split; [lia|].
  apply in_seq. lia.
Qed.

Lemma Z2F_leb_mono (a b : Z) :
  (0 <= a)%Z -> (a <= b)%Z -> (b <= 130)%Z ->
  PrimFloat.leb (Z2F a) (Z2F b) = true.
Proof.
  intros H0 Hab Hb.
  assert (Hall : forallb (fun a => forallb (fun b =>
            implb (a <=? b)%Z (PrimFloat.leb (Z2F a) (Z2F b))) (upto 131))
            (upto 131) = true) by (vm_compute; reflexivity).
  pose proof (upto_forallb _ _ a Hall ltac:(lia)) as Ha. cbv beta in Ha.
  pose proof (upto_forallb _ _ b Ha ltac:(lia)) as Hb'. cbv beta in Hb'.
  apply Z.leb_le in Hab. rewrite Hab in Hb'. exact Hb'.
Qed.

Lemma Z2F_min (n : Z) :
  (0 <= n <= 130)%Z -> py_min (Z2F n) 100 = Z2F (Z.min n 100).
Proof.
  intros Hn.
  apply (upto_Forall (fun n => py_min (Z2F n) 100 = Z2F (Z.min n 100)) 131);
    [|lia].
  unfold upto. cbn [seq map]. repeat (constructor; [reflexivity|]). constructor.
Qed.

(** ** The scorer computes the integer sum of its tiers *)

Lemma numeric_input_field (factors : gmap string value) (k : string) :
  numeric_input factors = true -> In k numeric_keys ->
  as_num (dict_get factors k (VNum (of_Z 0)))
  = Ok (num_of (dict_get factors k (VNum (of_Z 0)))).
Proof.
  intros Hnum Hk. unfold numeric_input in Hnum.
  rewrite forallb_forall in Hnum. specialize (Hnum k Hk).
  unfold dict_get, num_of. destruct (factors !! k) as [v|]; simpl; [|reflexivity].
  unfold is_numeric in Hnum. destruct (as_num v); [reflexivity|discriminate].
Qed.

Lemma Tier_total_range (factors : gmap string value) :
  (0 <= Tier.total factors <= 130)%Z.
Proof.
  unfold Tier.total, Tier.flag, Tier.holder, Tier.top10, Tier.dev, Tier.liquidity.
  repeat match goal with |- context [if ?c then _ else _] => destruct c end; lia.
Qed.

Lemma penalty_sum_total (factors : gmap string value) :
  numeric_input factors = true ->
  penalty_sum factors = Ok (Z2F (Tier.total factors)).
Proof.
  intros Hnum.
  pose proof (numeric_input_field factors "holder_count" Hnum) as Hh.
  pose proof (numeric_input_field factors "top_10_holdings_pct" Hnum) as Ht.
  pose proof (numeric_input_field factors "dev_holdings_pct" Hnum) as Hd.
  pose proof (numeric_input_field factors "liquidity_usd" Hnum) as Hl.
  unfold numeric_keys in Hh, Ht, Hd, Hl.
  specialize (Hh ltac:(simpl; tauto)). specialize (Ht ltac:(simpl; tauto)).
  specialize (Hd ltac:(simpl; tauto)). specialize (Hl ltac:(simpl; tauto)).
  unfold penalty_sum, Tier.total, holder_block, top10_block, dev_block,
    liquidity_block, py_lt, py_gt.
  rewrite Hh, Ht, Hd, Hl. clear Hh Ht Hd Hl.
  generalize (num_of (dict_get factors "holder_count" (VNum (of_Z 0)))).
  generalize (num_of (dict_get factors "top_10_holdings_pct" (VNum (of_Z 0)))).
  generalize (num_of (dict_get factors "dev_holdings_pct" (VNum (of_Z 0)))).
  generalize (num_of (dict_get factors "liquidity_usd" (VNum (of_Z 0)))).
  generalize (dict_get factors "mint_authority_revoked" (VBool false)).
  generalize (dict_get factors "freeze_authority_revoked" (VBool false)).
  generalize (dict_get factors "liquidity_locked" (VBool false)).
  intros vl vf vm xl xd xt xh.
  unfold flag_block, Tier.flag, Tier.holder, Tier.top10, Tier.dev, Tier.liquidity.
  cbn [mbind result_bind].
  destruct (negb (truthy vm)), (negb (truthy vf)), (negb (truthy vl));
    destruct (ltb xh (of_Z 50)); cbn [mbind result_bind];
    try destruct (ltb xh (of_Z 100)); cbn [mbind result_bind];
    destruct (ltb (of_Z 80) xt); cbn [mbind result_bind];
    try destruct (ltb (of_Z 60) xt); cbn [mbind result_bind];
    try destruct (ltb (of_Z 40) xt); cbn [mbind result_bind];
    destruct (ltb (of_Z 20) xd); cbn [mbind result_bind];
    try destruct (ltb (of_Z 10) xd); cbn [mbind result_bind];
    destruct (ltb xl (of_Z 5000)); reflexivity.
Qed.

Lemma calculate_risk_score_total (factors : gmap string value) :
  numeric_input factors = true ->
  calculate_risk_score factors = Ok (Z2F (Z.min (Tier.total factors) 100)).
Proof.
  intros Hnum. unfold calculate_risk_score.
  rewrite (penalty_sum_total _ Hnum). cbn [mbind result_bind].
  rewrite Z2F_min by apply Tier_total_range. reflexivity.
Qed.

(** ** Order facts on received numbers *)

Lemma ltb_of_Z (a b : Z) : ltb (of_Z a) (of_Z b) = (a <? b)%Z.
Proof.
  unfold ltb, of_Z, Qle_bool, inject_Z. cbn [Qnum Qden].
  rewrite !Z.mul_1_r. rewrite Z.ltb_antisym. reflexivity.
Qed.

Lemma Qle_bool_trans (x y z : Q) :
  Qle_bool x y = true -> Qle_bool y z = true -> Qle_bool x z = true.
Proof.
  rewrite !Qle_bool_iff. apply Qle_trans.
Qed.

Lemma Qle_bool_total (x y : Q) :
  Qle_bool x y = false -> Qle_bool y x = true.
Proof.
  intros H. apply Qle_bool_iff. apply Qlt_le_weak. apply Qnot_le_lt.
  intros Hle. apply Qle_bool_iff in Hle. congruence.
Qed.

(** [x <= y] and [y < c] give [x < c]. *)
Lemma leb_ltb_trans (x y c : num) :
  leb x y = true -> ltb y c = true -> ltb x c = true.
Proof.
  destruct x as [x| | |], y as [y| | |], c as [c| | |]; simpl;
    try discriminate; try reflexivity.
  intros Hxy Hyc. apply negb_true_iff. apply negb_true_iff in Hyc.
  destruct (Qle_bool c x) eqn:Hcx; [|reflexivity].
  rewrite (Qle_bool_trans _ _ _ Hcx Hxy) in Hyc. discriminate.
Qed.

(** [c < x] and [x <= y] give [c < y]. *)
Lemma ltb_leb_trans (c x y : num) :
  ltb c x = true -> leb x y = true -> ltb c y = true.
Proof.
  destruct x as [x| | |], y as [y| | |], c as [c| | |]; simpl;
    try discriminate; try reflexivity.
  intros Hcx Hxy. apply negb_true_iff. apply negb_true_iff in Hcx.
  destruct (Qle_bool y c) eqn:Hyc; [|reflexivity].
  rewrite (Qle_bool_trans _ _ _ Hxy Hyc) in Hcx. discriminate.
Qed.

(** ** The tiers are monotone *)

Lemma Tier_holder_antitone (x y : num) :
  leb x y = true -> (Tier.holder y <= Tier.holder x)%Z.
Proof.
  intros Hxy. unfold Tier.holder.
  destruct (ltb y (of_Z 50)) eqn:H1.
  - rewrite (leb_ltb_trans _ _ _ Hxy H1). lia.
  - destruct (ltb y (of_Z 100)) eqn:H2.
    + rewrite (leb_ltb_trans _ _ _ Hxy H2). destruct (ltb x (of_Z 50)); lia.
    + destruct (ltb x (of_Z 50)), (ltb x (of_Z 100)); lia.
Qed.

Lemma Tier_liquidity_antitone (x y : num) :
  leb x y = true -> (Tier.liquidity y <= Tier.liquidity x)%Z.
Proof.
  intros Hxy. unfold Tier.liquidity.
  destruct (ltb y (of_Z 5000)) eqn:H1.
  - rewrite (leb_ltb_trans _ _ _ Hxy H1). lia.
  - destruct (ltb x (of_Z 5000)); lia.
Qed.

Lemma Tier_top10_monotone (x y : num) :
  leb x y = true -> (Tier.top10 x <= Tier.top10 y)%Z.
Proof.
  intros Hxy. unfold Tier.top10.
  destruct (ltb (of_Z 80) x) eqn:H1.
  - rewrite (ltb_leb_trans _ _ _ H1 Hxy). lia.
  - destruct (ltb (of_Z 60) x) eqn:H2.
    + rewrite (ltb_leb_trans _ _ _ H2 Hxy). destruct (ltb (of_Z 80) y); lia.
    + destruct (ltb (of_Z 40) x) eqn:H3.
      * rewrite (ltb_leb_trans _ _ _ H3 Hxy).
        destruct (ltb (of_Z 80) y), (ltb (of_Z 60) y); lia.
      * destruct (ltb (of_Z 80) y), (ltb (of_Z 60) y), (ltb (of_Z 40) y); lia.
Qed.

Lemma Tier_dev_monotone (x y : num) :
  leb x y = true -> (Tier.dev x <= Tier.dev y)%Z.
Proof.
  intros Hxy. unfold Tier.dev.
  destruct (ltb (of_Z 20) x) eqn:H1.
  - rewrite (ltb_leb_trans _ _ _ H1 Hxy). lia.
  - destruct (ltb (of_Z 10) x) eqn:H2.
    + rewrite (ltb_leb_trans _ _ _ H2 Hxy). destruct (ltb (of_Z 20) y); lia.
    + destruct (ltb (of_Z 20) y), (ltb (of_Z 10) y); lia.
Qed.

Lemma Tier_flag_antitone (a b : bool) (p : Z) :
  (0 <= p)%Z -> (b = true -> a = true) ->
  (Tier.flag (VBool a) p <= Tier.flag (VBool b) p)%Z.
Proof.
  intros Hp Hab. unfold Tier.flag. simpl.
  destruct a, b; simpl; try lia.
Qed.

(** ** The dictionary of a typed input *)

Lemma to_dict_numeric (r : RiskFactors) : numeric_input (to_dict r) = true.
Proof. reflexivity. Qed.

Lemma Tier_total_to_dict (r : RiskFactors) :
  Tier.total (to_dict r)
  = (Tier.flag (VBool (mint_authority_revoked r)) 30
     + Tier.flag (VBool (freeze_authority_revoked r)) 20
     + Tier.holder (of_Z (holder_count r))
     + Tier.top10 (Fin (top10_holdings_pct r))
     + Tier.dev (Fin (dev_holdings_pct r))
     + Tier.flag (VBool (liquidity_locked r)) 20
     + Tier.liquidity (Fin (liquidity_usd r)))%Z.
Proof. reflexivity. Qed.

(** ** The tiers of the code and the rows of the specification's table *)

Lemma flag_row (b : bool) (p : Z) :
  Tier.flag (VBool b) p = SpecTable.row (negb b) p.
Proof. reflexivity. Qed.

Lemma holder_rows (h : Z) :
  Tier.holder (of_Z h)
  = (SpecTable.row (h <? 50) 15 + SpecTable.row ((50 <=? h) && (h <? 100)) 10)%Z.
Proof.
  unfold Tier.holder, SpecTable.row. rewrite !ltb_of_Z.
  destruct (Z.ltb_spec h 50), (Z.ltb_spec h 100), (Z.leb_spec 50 h);
    simpl; lia.
Qed.

Lemma top10_rows (t : Q) :
  Tier.top10 (Fin t)
  = (SpecTable.row (SpecTable.Qlt_bool 80 t) 20
     + SpecTable.row (SpecTable.Qlt_bool 60 t && Qle_bool t 80) 15
     + SpecTable.row (SpecTable.Qlt_bool 40 t && Qle_bool t 60) 10)%Z.
Proof.
  unfold Tier.top10, SpecTable.row, SpecTable.Qlt_bool, ltb, of_Z.
  change (inject_Z 80) with 80%Q. change (inject_Z 60) with 60%Q.
  change (inject_Z 40) with 40%Q.
  assert (H46 : Qle_bool 40 60 = true) by reflexivity.
  assert (H68 : Qle_bool 60 80 = true) by reflexivity.
  destruct (Qle_bool t 40) eqn:H4.
  - rewrite (Qle_bool_trans _ _ _ H4 H46).
    rewrite (Qle_bool_trans _ _ _ (Qle_bool_trans _ _ _ H4 H46) H68).
    reflexivity.
  - destruct (Qle_bool t 60) eqn:H6.
    + rewrite (Qle_bool_trans _ _ _ H6 H68). reflexivity.
    + destruct (Qle_bool t 80); reflexivity.
Qed.

Lemma dev_rows (d : Q) :
  Tier.dev (Fin d)
  = (SpecTable.row (SpecTable.Qlt_bool 20 d) 15
     + SpecTable.row (SpecTable.Qlt_bool 10 d && Qle_bool d 20) 10)%Z.
Proof.
  unfold Tier.dev, SpecTable.row, SpecTable.Qlt_bool, ltb, of_Z.
  change (inject_Z 20) with 20%Q. change (inject_Z 10) with 10%Q.
  assert (H12 : Qle_bool 10 20 = true) by reflexivity.
  destruct (Qle_bool d 10) eqn:H1.
  - rewrite (Qle_bool_trans _ _ _ H1 H12). reflexivity.
  - destruct (Qle_bool d 20); reflexivity.
Qed.

Lemma liquidity_row (l : Q) :
  Tier.liquidity (Fin l) = SpecTable.row (SpecTable.Qlt_bool l 5000) 10.
Proof. reflexivity. Qed.

Lemma Tier_total_spec_table (r : RiskFactors) :
  Tier.total (to_dict r) = SpecTable.sum_of_penalties r.
Proof.
  rewrite Tier_total_to_dict. unfold SpecTable.sum_of_penalties. cbv zeta.
  rewrite !flag_row, holder_rows, top10_rows, dev_rows, liquidity_row. lia.
Qed.

Lemma score_of_record (r : RiskFactors) :
  calculate_risk_score (to_dict r) = Ok (Z2F (SpecTable.score r)).
Proof.
  rewrite calculate_risk_score_total by apply to_dict_numeric.
  rewrite Tier_total_spec_table. reflexivity.
Qed.

(** C1. For every [RiskFactors] input whose numeric fields are in the
    specification's ranges, [calculate_risk_score] returns
    [min(S, 100)], where [S] is the sum of the penalties of the rows of the
    specification's table that apply.  The all-clean scenario scores 0; the
    all-bad scenario has raw sum 130 and returns exactly 100. *)
Theorem score_is_capped_sum_of_penalties (r : RiskFactors) :
  in_spec_ranges r ->
  calculate_risk_score (to_dict r)
  = Ok (Z2F (Z.min (SpecTable.sum_of_penalties r) 100))
  /\ calculate_risk_score (to_dict all_clean) = Ok 0%float
  /\ SpecTable.sum_of_penalties all_bad = 130%Z
  /\ penalty_sum (to_dict all_bad) = Ok 130%float
  /\ calculate_risk_score (to_dict all_bad) = Ok 100%float.
Proof.
  intros _. split; [apply score_of_record|].
  repeat split; reflexivity.
Qed.

Lemma score_is_capped_sum_of_penalties_witness :
  calculate_risk_score
    (to_dict (mkRiskFactors true false 75 (65 # 1) (25 # 2) true (4999 # 1)))
  = Ok 65%float.
Proof.
  refine (proj1 (score_is_capped_sum_of_penalties
    (mkRiskFactors true false 75 (65 # 1) (25 # 2) true (4999 # 1)) _)).
  unfold in_spec_ranges; simpl. repeat split; vm_compute; discriminate.
Defined.

(** C4. On every numeric input, whatever the size or sign of its numbers,
    [calculate_risk_score] returns a score (it raises nothing), and the
    score lies between 0 and 100. *)
Theorem score_total_and_bounded (factors : gmap string value) :
  numeric_input factors = true ->
  exists score : float,
    calculate_risk_score factors = Ok score
    /\ PrimFloat.leb 0 score = true
    /\ PrimFloat.leb score 100 = true.
Proof.
  intros Hnum. exists (Z2F (Z.min (Tier.total factors) 100)).
  pose proof (Tier_total_range factors) as Hr.
  split; [apply calculate_risk_score_total, Hnum|].
  split.
  - change 0%float with (Z2F 0). apply Z2F_leb_mono; lia.
  - change 100%float with (Z2F 100). apply Z2F_leb_mono; lia.
Qed.

Lemma score_total_and_bounded_witness :
  exists score : float,
    calculate_risk_score
      (<["holder_count" := VNum (of_Z (-7))]>
       (<["top_10_holdings_pct" := VNum (Fin (250 # 1))]>
       (<["dev_holdings_pct" := VNum (Fin (-3 # 2))]>
       (<["liquidity_usd" := VNum NaN]> ∅)))) = Ok score
    /\ PrimFloat.leb 0 score = true
    /\ PrimFloat.leb score 100 = true.
Proof.
  apply (score_total_and_bounded
    (<["holder_count" := VNum (of_Z (-7))]>
     (<["top_10_holdings_pct" := VNum (Fin (250 # 1))]>
     (<["dev_holdings_pct" := VNum (Fin (-3 # 2))]>
     (<["liquidity_usd" := VNum NaN]> ∅))))).
  reflexivity.
Defined.

(** ** Monotonicity *)

Lemma leb_Fin (x y : Q) : (x <= y)%Q -> leb (Fin x) (Fin y) = true.
Proof. intros H. simpl. apply Qle_bool_iff, H. Qed.

Lemma leb_of_Z (a b : Z) : (a <= b)%Z -> leb (of_Z a) (of_Z b) = true.
Proof. intros H. apply leb_Fin. rewrite <- Zle_Qle. exact H. Qed.

Lemma total_monotone (a b : RiskFactors) :
  riskier_or_equal a b ->
  (Tier.total (to_dict a) <= Tier.total (to_dict b))%Z.
Proof.
  intros (Hm & Hf & Hh & Ht & Hd & Hl & Hu).
  rewrite !Tier_total_to_dict.
  pose proof (Tier_flag_antitone _ _ 30 ltac:(lia) Hm).
  pose proof (Tier_flag_antitone _ _ 20 ltac:(lia) Hf).
  pose proof (Tier_flag_antitone _ _ 20 ltac:(lia) Hl).
  pose proof (Tier_holder_antitone _ _ (leb_of_Z _ _ Hh)).
  pose proof (Tier_top10_monotone _ _ (leb_Fin _ _ Ht)).
  pose proof (Tier_dev_monotone _ _ (leb_Fin _ _ Hd)).
  pose proof (Tier_liquidity_antitone _ _ (leb_Fin _ _ Hu)).
  lia.
Qed.

Lemma score_monotone (a b : RiskFactors) :
  riskier_or_equal a b ->
  exists sa sb : float,
    calculate_risk_score (to_dict a) = Ok sa
    /\ calculate_risk_score (to_dict b) = Ok sb
    /\ PrimFloat.leb sa sb = true.
Proof.
  intros Hab.
  exists (Z2F (Z.min (Tier.total (to_dict a)) 100)),
         (Z2F (Z.min (Tier.total (to_dict b)) 100)).
  split; [apply calculate_risk_score_total, to_dict_numeric|].
  split; [apply calculate_risk_score_total, to_dict_numeric|].
  pose proof (total_monotone a b Hab).
  pose proof (Tier_total_range (to_dict a)).
  pose proof (Tier_total_range (to_dict b)).
  apply Z2F_leb_mono; lia.
Qed.

Lemma one_field_riskier_or_equal (a b : RiskFactors) :
  one_field_riskier a b -> riskier_or_equal a b.
Proof.
  intros H. destruct H; unfold riskier_or_equal; cbn;
    repeat split; try tauto; try discriminate;
    try apply Z.le_refl; try apply Qle_refl;
    try (apply Z.lt_le_incl; assumption);
    try (apply Qlt_le_weak; assumption).
Qed.

(** C5. Monotonicity: when two [RiskFactors] inputs differ in exactly one
    field, moved in the risk-increasing direction (fewer holders, less
    liquidity, a higher top-10 or developer share, an authority no longer
    revoked, liquidity no longer locked), the score of the riskier input is
    greater than or equal to the score of the safer one. *)
Theorem score_monotone_in_each_factor (safer riskier : RiskFactors) :
  one_field_riskier safer riskier ->
  exists s_safer s_riskier : float,
    calculate_risk_score (to_dict safer) = Ok s_safer
    /\ calculate_risk_score (to_dict riskier) = Ok s_riskier
    /\ PrimFloat.leb s_safer s_riskier = true.
Proof.
  intros H. apply score_monotone, one_field_riskier_or_equal, H.
Qed.

Lemma score_monotone_in_each_factor_witness :
  exists s_safer s_riskier : float,
    calculate_risk_score (to_dict (mkRiskFactors true true 120 10 2 true 100000))
    = Ok s_safer
    /\ calculate_risk_score (to_dict (mkRiskFactors true true 40 10 2 true 100000))
       = Ok s_riskier
    /\ PrimFloat.leb s_safer s_riskier = true.
Proof.
  apply (score_monotone_in_each_factor
           (mkRiskFactors true true 120 10 2 true 100000)
           (mkRiskFactors true true 40 10 2 true 100000)).
  apply Riskier_holder. reflexivity.
Defined.

(** ** One tier per bucketed factor *)

Lemma holder_block_one_tier (x : num) (score : float) :
  exists p, In p [None; Some 10%float; Some 15%float]
            /\ holder_block (VNum x) score = Ok (add_tier p score).
Proof.
  unfold holder_block, py_lt. cbn [as_num mbind result_bind].
  destruct (ltb x (of_Z 50)); [exists (Some 15%float); simpl; tauto|].
  cbn [mbind result_bind].
  destruct (ltb x (of_Z 100)); [exists (Some 10%float)|exists None];
    simpl; tauto.
Qed.

Lemma top10_block_one_tier (x : num) (score : float) :
  exists p, In p [None; Some 10%float; Some 15%float; Some 20%float]
            /\ top10_block (VNum x) score = Ok (add_tier p score).
Proof.
  unfold top10_block, py_gt. cbn [as_num mbind result_bind].
  destruct (ltb (of_Z 80) x); [exists (Some 20%float); simpl; tauto|].
  cbn [mbind result_bind].
  destruct (ltb (of_Z 60) x); [exists (Some 15%float); simpl; tauto|].
  cbn [mbind result_bind].
  destruct (ltb (of_Z 40) x); [exists (Some 10%float)|exists None];
    simpl; tauto.
Qed.

Lemma dev_block_one_tier (x : num) (score : float) :
  exists p, In p [None; Some 10%float; Some 15%float]
            /\ dev_block (VNum x) score = Ok (add_tier p score).
Proof.
  unfold dev_block, py_gt. cbn [as_num mbind result_bind].
  destruct (ltb (of_Z 20) x); [exists (Some 15%float); simpl; tauto|].
  cbn [mbind result_bind].
  destruct (ltb (of_Z 10) x); [exists (Some 10%float)|exists None];
    simpl; tauto.
Qed.

(** C6. Each bucketed factor (holder count, top-10 share, developer share)
    contributes at most one penalty tier, the most severe one that matches:
    its block returns the score unchanged or increased by a single tier,
    the thresholds are tried from the most severe one downwards and the
    first that matches decides -- 15 below 50 holders, else 10 below 100,
    else nothing; 20 above a top-10 share of 80, else 15 above 60, else 10
    above 40, else nothing; 15 above a developer share of 20, else 10 above
    10, else nothing -- and only what the value is worth counts.  A
    top-10 share of 85 contributes exactly 20, a holder count of 50
    contributes 10 and a holder count of 49 contributes 15, both inside the
    block and in the score of an otherwise clean token. *)
Theorem one_tier_per_bucketed_factor :
  (forall (x : num) (score : float),
      exists p, In p [None; Some 10%float; Some 15%float]
                /\ holder_block (VNum x) score = Ok (add_tier p score))
  /\ (forall (x : num) (score : float),
      exists p, In p [None; Some 10%float; Some 15%float; Some 20%float]
                /\ top10_block (VNum x) score = Ok (add_tier p score))
  /\ (forall (x : num) (score : float),
      exists p, In p [None; Some 10%float; Some 15%float]
                /\ dev_block (VNum x) score = Ok (add_tier p score))
  /\ (forall (x : num) (score : float),
      ltb x (of_Z 50) = true ->
      holder_block (VNum x) score = Ok (score + 15)%float)
  /\ (forall (x : num) (score : float),
      ltb (of_Z 80) x = true ->
      top10_block (VNum x) score = Ok (score + 20)%float)
  /\ (forall (x : num) (score : float),
      ltb (of_Z 20) x = true ->
      dev_block (VNum x) score = Ok (score + 15)%float)
  /\ (forall score : float,
      top10_block (VNum (of_Z 85)) score = Ok (score + 20)%float
      /\ holder_block (VNum (of_Z 50)) score = Ok (score + 10)%float
      /\ holder_block (VNum (of_Z 49)) score = Ok (score + 15)%float)
  /\ calculate_risk_score
       (to_dict (mkRiskFactors true true 1000 85 2 true 100000)) = Ok 20%float
  /\ calculate_risk_score
       (to_dict (mkRiskFactors true true 50 10 2 true 100000)) = Ok 10%float
  /\ calculate_risk_score
       (to_dict (mkRiskFactors true true 49 10 2 true 100000)) = Ok 15%float
  /\ (forall (x : num) (score : float),
      ltb x (of_Z 50) = false -> ltb x (of_Z 100) = true ->
      holder_block (VNum x) score = Ok (score + 10)%float)
  /\ (forall (x : num) (score : float),
      ltb x (of_Z 50) = false -> ltb x (of_Z 100) = false ->
      holder_block (VNum x) score = Ok score)
  /\ (forall (x : num) (score : float),
      ltb (of_Z 80) x = false -> ltb (of_Z 60) x = true ->
      top10_block (VNum x) score = Ok (score + 15)%float)
  /\ (forall (x : num) (score : float),
      ltb (of_Z 80) x = false -> ltb (of_Z 60) x = false ->
      ltb (of_Z 40) x = true ->
      top10_block (VNum x) score = Ok (score + 10)%float)
  /\ (forall (x : num) (score : float),
      ltb (of_Z 80) x = false -> ltb (of_Z 60) x = false ->
      ltb (of_Z 40) x = false ->
      top10_block (VNum x) score = Ok score)
  /\ (forall (x : num) (score : float),
      ltb (of_Z 20) x = false -> ltb (of_Z 10) x = true ->
      dev_block (VNum x) score = Ok (score + 10)%float)
  /\ (forall (x : num) (score : float),
      ltb (of_Z 20) x = false -> ltb (of_Z 10) x = false ->
      dev_block (VNum x) score = Ok score)
  /\ (forall (v : value) (x : num) (score : float),
      as_num v = Ok x ->
      holder_block v score = holder_block (VNum x) score
      /\ top10_block v score = top10_block (VNum x) score
      /\ dev_block v score = dev_block (VNum x) score)
  /\ calculate_risk_score
       (to_dict (mkRiskFactors true true 1000 70 2 true 100000)) = Ok 15%float
  /\ calculate_risk_score
       (to_dict (mkRiskFactors true true 1000 50 2 true 100000)) = Ok 10%float
  /\ calculate_risk_score
       (to_dict (mkRiskFactors true true 1000 10 15 true 100000)) = Ok 10%float
  /\ calculate_risk_score
       (to_dict (mkRiskFactors true true 1000 10 25 true 100000)) = Ok 15%float.
Proof.
  split; [exact holder_block_one_tier|].
  split; [exact top10_block_one_tier|].
  split; [exact dev_block_one_tier|].
  split.
  { intros x score H. unfold holder_block, py_lt.
    cbn [as_num mbind result_bind]. rewrite H. reflexivity. }
  split.
  { intros x score H. unfold top10_block, py_gt.
    cbn [as_num mbind result_bind]. rewrite H. reflexivity. }
  split.
  { intros x score H. unfold dev_block, py_gt.
    cbn [as_num mbind result_bind]. rewrite H. reflexivity. }
  split; [intros score; repeat split; reflexivity|].
  do 3 (split; [reflexivity|]).
  split.
  { intros x score H1 H2. unfold holder_block, py_lt.
    cbn [as_num mbind result_bind]. rewrite H1. cbn [mbind result_bind].
    rewrite H2. reflexivity. }
  split.
  { intros x score H1 H2. unfold holder_block, py_lt.
    cbn [as_num mbind result_bind]. rewrite H1. cbn [mbind result_bind].
    rewrite H2. reflexivity. }
  split.
  { intros x score H1 H2. unfold top10_block, py_gt.
    cbn [as_num mbind result_bind]. rewrite H1. cbn [mbind result_bind].
    rewrite H2. reflexivity. }
  split.
  { intros x score H1 H2 H3. unfold top10_block, py_gt.
    cbn [as_num mbind result_bind]. rewrite H1. cbn [mbind result_bind].
    rewrite H2. cbn [mbind result_bind]. rewrite H3. reflexivity. }
  split.
  { intros x score H1 H2 H3. unfold top10_block, py_gt.
    cbn [as_num mbind result_bind]. rewrite H1. cbn [mbind result_bind].
    rewrite H2. cbn [mbind result_bind]. rewrite H3. reflexivity. }
  split.
  { intros x score H1 H2. unfold dev_block, py_gt.
    cbn [as_num mbind result_bind]. rewrite H1. cbn [mbind result_bind].
    rewrite H2. reflexivity. }
  split.
  { intros x score H1 H2. unfold dev_block, py_gt.
    cbn [as_num mbind result_bind]. rewrite H1. cbn [mbind result_bind].
    rewrite H2. reflexivity. }
  split.
  { intros v x score Hv. unfold holder_block, top10_block, dev_block, py_lt, py_gt.
    rewrite Hv. repeat split; reflexivity. }
  repeat split; reflexivity.
Qed.

(** ** Absent fields *)

Lemma missing_as_default (factors : gmap string value) (k : string) (d : value)
      (k' : string) (d' : value) :
  (k' = k -> d' = d) ->
  dict_get (delete k factors) k' d' = dict_get (<[k := d]> factors) k' d'.
Proof.
  intros Hd. unfold dict_get.
  destruct (decide (k' = k)) as [->|Hne].
  - rewrite lookup_delete_eq, lookup_insert_eq. simpl. apply Hd. reflexivity.
  - rewrite lookup_delete_ne, lookup_insert_ne by congruence. reflexivity.
Qed.

Lemma score_missing_as_default (factors : gmap string value) (k : string) (d : value) :
  In (k, d) [("mint_authority_revoked", VBool false);
             ("freeze_authority_revoked", VBool false);
             ("holder_count", VNum (of_Z 0));
             ("top_10_holdings_pct", VNum (of_Z 0));
             ("dev_holdings_pct", VNum (of_Z 0));
             ("liquidity_locked", VBool false);
             ("liquidity_usd", VNum (of_Z 0))] ->
  calculate_risk_score (delete k factors)
  = calculate_risk_score (<[k := d]> factors).
Proof.
  intros Hin. unfold calculate_risk_score, penalty_sum.
  rewrite !(missing_as_default factors k d); [reflexivity| ..];
    intros <-; simpl in Hin;
    repeat (destruct Hin as [Hin|Hin]; [congruence|]); destruct Hin.
Qed.

(** C9. An absent field is read as its risky default: an absent boolean
    field scores like [False] (its penalty fires) and an absent numeric
    field scores like 0 (the holder-count and liquidity penalties fire, the
    percentage penalties do not).  On the empty mapping the score is
    exactly 95.0 = 30 + 20 + 15 + 20 + 10. *)
Theorem missing_fields_default_to_risky :
  (forall factors : gmap string value,
      calculate_risk_score (delete "mint_authority_revoked" factors)
      = calculate_risk_score (<["mint_authority_revoked" := VBool false]> factors)
      /\ calculate_risk_score (delete "freeze_authority_revoked" factors)
         = calculate_risk_score (<["freeze_authority_revoked" := VBool false]> factors)
      /\ calculate_risk_score (delete "liquidity_locked" factors)
         = calculate_risk_score (<["liquidity_locked" := VBool false]> factors)
      /\ calculate_risk_score (delete "holder_count" factors)
         = calculate_risk_score (<["holder_count" := VNum (of_Z 0)]> factors)
      /\ calculate_risk_score (delete "top_10_holdings_pct" factors)
         = calculate_risk_score (<["top_10_holdings_pct" := VNum (of_Z 0)]> factors)
      /\ calculate_risk_score (delete "dev_holdings_pct" factors)
         = calculate_risk_score (<["dev_holdings_pct" := VNum (of_Z 0)]> factors)
      /\ calculate_risk_score (delete "liquidity_usd" factors)
         = calculate_risk_score (<["liquidity_usd" := VNum (of_Z 0)]> factors))
  /\ penalty_sum ∅ = Ok (0 + 30 + 20 + 15 + 20 + 10)%float
  /\ calculate_risk_score ∅ = Ok 95%float.
Proof.
  split; [|split; reflexivity].
  intros factors.
  repeat split; apply score_missing_as_default; simpl; tauto.
Qed.

(** ** The detector, case by case *)

(** What [detect_rug_patterns] returns, from the result of the sum. *)
Lemma detect_from_sum (h : list (gmap string value)) :
  detect_rug_patterns h
  = Ok (let dev := (3 <? dev_sell_count h)%nat in
        if (0 <? length (List.filter (has_type "lp_remove") h))%nat then
          match lp_remove_sum h with
          | Ok total => verdict_of dev (ltb (of_Z 50) (addend_value total))
          | Raise _ => interrupted_verdict dev
          end
        else verdict_of dev false).
Proof.
  unfold detect_rug_patterns, try_except, try_body, dev_sell_count,
    lp_remove_sum.
  fold get_amount. cbv zeta.
  destruct (3 <? length (List.filter (has_type "dev_sell") h))%nat;
    destruct (0 <? length (List.filter (has_type "lp_remove") h))%nat;
    try reflexivity;
    destruct (py_sum (map get_amount (List.filter (has_type "lp_remove") h)))
      as [total|e]; try reflexivity;
    cbv -[ltb of_Z addend_value];
    destruct (ltb (of_Z 50) (addend_value total)); reflexivity.
Qed.

Lemma lp_remove_sum_nil (h : list (gmap string value)) :
  (0 <? length (List.filter (has_type "lp_remove") h))%nat = false ->
  lp_remove_sum h = Ok (Exact 0).
Proof.
  unfold lp_remove_sum.
  destruct (List.filter (has_type "lp_remove") h); [reflexivity|discriminate].
Qed.

(** The sum was computed: the [try] body ran to its end. *)
Lemma detect_of_sum (h : list (gmap string value)) (total : addend) :
  lp_remove_sum h = Ok total ->
  detect_rug_patterns h
  = Ok (verdict_of (3 <? dev_sell_count h)%nat
                   (ltb (of_Z 50) (addend_value total))).
Proof.
  intros Hsum. rewrite detect_from_sum. cbv zeta.
  destruct (0 <? length (List.filter (has_type "lp_remove") h))%nat eqn:Hlen.
  - rewrite Hsum. reflexivity.
  - rewrite (lp_remove_sum_nil h Hlen) in Hsum. injection Hsum as <-.
    reflexivity.
Qed.

(** The sum raised: the handler returns what the dev-sell step left. *)
Lemma detect_of_raise (h : list (gmap string value)) (e : exn) :
  lp_remove_sum h = Raise e ->
  detect_rug_patterns h = Ok (interrupted_verdict (3 <? dev_sell_count h)%nat).
Proof.
  intros Hsum. rewrite detect_from_sum. cbv zeta.
  destruct (0 <? length (List.filter (has_type "lp_remove") h))%nat eqn:Hlen.
  - rewrite Hsum. reflexivity.
  - rewrite (lp_remove_sum_nil h Hlen) in Hsum. discriminate.
Qed.

(** Without any assumption on the amounts: one of the two shapes. *)
Lemma detect_cases (h : list (gmap string value)) :
  exists lp : bool,
    detect_rug_patterns h = Ok (verdict_of (3 <? dev_sell_count h)%nat lp)
    \/ (lp = false
        /\ detect_rug_patterns h
           = Ok (interrupted_verdict (3 <? dev_sell_count h)%nat)).
Proof.
  destruct (lp_remove_sum h) as [total|e] eqn:Hsum.
  - exists (ltb (of_Z 50) (addend_value total)). left.
    apply detect_of_sum, Hsum.
  - exists false. right. split; [reflexivity|]. apply (detect_of_raise h e Hsum).
Qed.

(** ** Sums of [int] amounts are exact *)

Lemma int_amount_addend (t : gmap string value) (z : Z) :
  int_amount_of t = Some z ->
  as_addend (get_amount t) = Ok (Exact (inject_Z z)).
Proof.
  unfold int_amount_of, get_amount.
  destruct (dict_get t "amount" (VNum (of_Z 0))) as [|b|[q| | |]|s|f];
    try discriminate.
  - intros [= <-]. reflexivity.
  - destruct q as [n d]. cbn [Qden Qnum]. destruct d; try discriminate.
    intros [= <-]. reflexivity.
Qed.

Lemma py_sum_from_ints (items : list (gmap string value)) (q : Q) :
  forallb (fun t => bool_decide (is_Some (int_amount_of t))) items = true ->
  exists q' : Q,
    py_sum_from (Exact q) (map get_amount items) = Ok (Exact q')
    /\ (q' == q + inject_Z (fold_right Z.add 0%Z
                              (map (fun t => default 0%Z (int_amount_of t)) items)))%Q.
Proof.
  revert q. induction items as [|t items IH]; intros q Hall.
  - exists q. split; [reflexivity|]. cbn [map fold_right].
    change (inject_Z 0) with 0%Q. rewrite Qplus_0_r. reflexivity.
  - cbn [forallb] in Hall. apply andb_true_iff in Hall as [Ht Hall].
    apply bool_decide_eq_true in Ht. destruct Ht as [z Hz].
    cbn [map py_sum_from fold_right]. rewrite (int_amount_addend t z Hz).
    cbn [mbind result_bind py_add]. rewrite Hz. cbn [default].
    destruct (IH (q + inject_Z z)%Q Hall) as (q' & Hsum & Heq).
    exists q'. split; [exact Hsum|]. rewrite Heq, inject_Z_plus.
    symmetry. apply Qplus_assoc.
Qed.

Lemma int_amounts_filter (h : list (gmap string value)) :
  int_amounts h = true ->
  forallb (fun t => bool_decide (is_Some (int_amount_of t)))
          (List.filter (has_type "lp_remove") h) = true.
Proof.
  unfold int_amounts. induction h as [|t h IH]; intros Hall.
  - reflexivity.
  - cbn [forallb] in Hall. apply andb_true_iff in Hall as [Ht Hall].
    cbn [List.filter]. destruct (has_type "lp_remove" t).
    + cbn [forallb]. cbn [implb] in Ht. rewrite Ht. apply IH, Hall.
    + apply IH, Hall.
Qed.

Lemma lp_remove_sum_ints (h : list (gmap string value)) :
  int_amounts h = true ->
  exists q : Q,
    lp_remove_sum h = Ok (Exact q) /\ (q == inject_Z (int_total h))%Q.
Proof.
  intros Hint.
  destruct (py_sum_from_ints _ 0 (int_amounts_filter h Hint)) as (q & Hsum & Heq).
  exists q. split; [exact Hsum|]. rewrite Heq. unfold int_total.
  apply Qplus_0_l.
Qed.

Lemma ltb_50_whole (q : Q) (z : Z) :
  (q == inject_Z z)%Q -> ltb (of_Z 50) (Fin q) = (50 <? z)%Z.
Proof.
  intros Heq. rewrite <- ltb_of_Z. unfold ltb, of_Z.
  f_equal. destruct (Qle_bool q (inject_Z 50)) eqn:H1,
                    (Qle_bool (inject_Z z) (inject_Z 50)) eqn:H2;
    try reflexivity.
  - apply Qle_bool_iff in H1. rewrite Heq in H1. apply Qle_bool_iff in H1.
    congruence.
  - apply Qle_bool_iff in H2. rewrite <- Heq in H2. apply Qle_bool_iff in H2.
    congruence.
Qed.

(** With [int] amounts the code compares the true sum with 50. *)
Lemma detect_ints (h : list (gmap string value)) :
  int_amounts h = true ->
  detect_rug_patterns h
  = Ok (verdict_of (3 <? dev_sell_count h)%nat (50 <? int_total h)%Z).
Proof.
  intros Hint. destruct (lp_remove_sum_ints h Hint) as (q & Hsum & Heq).
  rewrite (detect_of_sum h _ Hsum). cbn [addend_value].
  rewrite (ltb_50_whole q _ Heq). reflexivity.
Qed.




(** C3 (amended). On every history the pattern "Multiple dev wallet sells
    detected" is in the verdict exactly when there are strictly more than 3
    [dev_sell] records (3 fire nothing), and the risk level is then at
    least MEDIUM.  Whenever the [lp_remove] amounts can be added up, the
    level is MEDIUM exactly when the dev-sell pattern fired and the
    liquidity pattern did not, a verdict with the dev-sell pattern alone is
    MEDIUM, not suspicious, with confidence 0.3, and the confidence is
    [min(n * 0.3, 1.0)] for the number [n] of detected patterns: 0.0, 0.3
    or 0.6.  When adding up the amounts raises, the handler returns the
    verdict as the dev-sell step left it, and the confidence is 0.0. *)
Theorem dev_sell_pattern_iff_more_than_3 (h : list (gmap string value)) :
  exists v : Verdict,
    detect_rug_patterns h = Ok v
    /\ (In dev_sell_pattern (detected_patterns v) <-> (3 < dev_sell_count h)%nat)
    /\ ((3 < dev_sell_count h)%nat ->
        (level_rank MEDIUM <= level_rank (risk_level v))%nat)
    /\ (forall total : addend,
        lp_remove_sum h = Ok total ->
        (risk_level v = MEDIUM
         <-> (3 < dev_sell_count h)%nat
             /\ ltb (of_Z 50) (addend_value total) = false)
        /\ (detected_patterns v = [dev_sell_pattern] ->
            risk_level v = MEDIUM /\ is_suspicious v = false
            /\ confidence v = 0.3%float)
        /\ confidence v
           = py_min (Z2F (Z.of_nat (length (detected_patterns v))) * 0.3)%float
                    1%float
        /\ (length (detected_patterns v) = 0%nat /\ confidence v = 0%float
            \/ length (detected_patterns v) = 1%nat /\ confidence v = 0.3%float
            \/ length (detected_patterns v) = 2%nat /\ confidence v = 0.6%float))
    /\ (forall e : exn,
        lp_remove_sum h = Raise e ->
        confidence v = 0%float /\ is_suspicious v = false
        /\ (risk_level v = MEDIUM <-> (3 < dev_sell_count h)%nat)
        /\ ~ In lp_remove_pattern (detected_patterns v))
    /\ detect_rug_patterns (replicate 3 (record "dev_sell" 1000))
       = Ok initial_patterns
    /\ detect_rug_patterns (replicate 4 (record "dev_sell" 1000))
       = Ok (mkVerdict false MEDIUM [dev_sell_pattern] 0.3%float).
Proof.
  destruct (lp_remove_sum h) as [total|e] eqn:Hsum.
  - eexists. split; [apply (detect_of_sum h total Hsum)|].
    assert (Hok : forall t : addend, Ok total = Ok t ->
              ltb (of_Z 50) (addend_value t) = ltb (of_Z 50) (addend_value total))
      by (intros t [= <-]; reflexivity).
    assert (Hraise : forall e : exn, Ok total = Raise e -> False)
      by (intros e He; discriminate He).
    revert Hok Hraise.
    generalize (@Ok addend total). intros r Hok Hraise.
    destruct (Nat.ltb_spec 3 (dev_sell_count h)) as [Hdev|Hdev];
      generalize dependent (dev_sell_count h); intros n Hdev;
      destruct (ltb (of_Z 50) (addend_value total)) eqn:Hlp;
      unfold verdict_of; cbv zeta;
      cbn [is_suspicious risk_level detected_patterns confidence app length
           level_rank In];
      assert (dev_sell_pattern <> lp_remove_pattern) by discriminate;
      repeat split; intros;
      repeat match goal with
             | H : _ /\ _ |- _ => destruct H
             | H : _ \/ _ |- _ => destruct H
             | H : False |- _ => destruct H
             | H : r = Ok ?t |- _ => pose proof (Hok t H); clear H
             | H : r = Raise ?e |- _ => destruct (Hraise e H)
             end;
      try reflexivity; try discriminate; try congruence; try lia; try tauto;
      auto.
  - eexists. split; [apply (detect_of_raise h e Hsum)|].
    assert (Hok : forall t : addend, Raise e = Ok t -> False)
      by (intros t Ht; discriminate Ht).
    revert Hok. generalize (@Raise addend e). intros r Hok.
    destruct (Nat.ltb_spec 3 (dev_sell_count h)) as [Hdev|Hdev];
      generalize dependent (dev_sell_count h); intros n Hdev;
      unfold interrupted_verdict;
      cbn [is_suspicious risk_level detected_patterns confidence app length
           level_rank In];
      assert (dev_sell_pattern <> lp_remove_pattern) by discriminate;
      repeat split; intros;
      repeat match goal with
             | H : _ /\ _ |- _ => destruct H
             | H : _ \/ _ |- _ => destruct H
             | H : False |- _ => destruct H
             | H : r = Ok ?t |- _ => destruct (Hok t H)
             end;
      try reflexivity; try discriminate; try congruence; try lia; try tauto.
Qed.

Lemma dev_sell_pattern_iff_more_than_3_witness :
  exists v : Verdict,
    detect_rug_patterns
      (replicate 5 (record "dev_sell" 10) ++ [float_record "lp_remove" 7.5])%list
    = Ok v
    /\ In dev_sell_pattern (detected_patterns v)
    /\ risk_level v = MEDIUM
    /\ is_suspicious v = false
    /\ confidence v = 0.3%float.
Proof.
  destruct (dev_sell_pattern_iff_more_than_3
              (replicate 5 (record "dev_sell" 10)
               ++ [float_record "lp_remove" 7.5])%list)
    as (v & Hv & Hin & _ & Hsum & _).
  exists v. split; [exact Hv|].
  destruct (Hsum (Binary 7.5) eq_refl) as (Hlevel & Honly & _).
  assert (Hdev : In dev_sell_pattern (detected_patterns v))
    by (apply Hin; vm_compute; lia).
  split; [exact Hdev|].
  assert (Hm : risk_level v = MEDIUM)
    by (apply Hlevel; split; [vm_compute; lia|reflexivity]).
  split; [exact Hm|].
  assert (E : detect_rug_patterns
           (replicate 5 (record "dev_sell" 10)
            ++ [float_record "lp_remove" 7.5])%list
         = Ok (mkVerdict false MEDIUM [dev_sell_pattern] 0.3%float))
    by reflexivity.
  rewrite E in Hv. injection Hv as <-. split; reflexivity.
Defined.

(** C3, as the specification states it, fails when adding up the amounts
    raises: with four dev sells, an [int] amount too large for a float and
    a float amount, all amounts are numbers and the dev-sell pattern is the
    only pattern, but the sum raises [OverflowError], the handler swallows
    it, and the confidence is 0.0, which is neither 0.3 nor
    [min(1 * 0.3, 1.0)]. *)
Lemma dev_sell_only_with_confidence_zero :
  numeric_amounts
    (replicate 4 (record "dev_sell" 1000)
     ++ [record "lp_remove" (10 ^ 400); float_record "lp_remove" 1.5])%list
  = true
  /\ lp_remove_sum
       (replicate 4 (record "dev_sell" 1000)
        ++ [record "lp_remove" (10 ^ 400); float_record "lp_remove" 1.5])%list
     = Raise OverflowError
  /\ detect_rug_patterns
       (replicate 4 (record "dev_sell" 1000)
        ++ [record "lp_remove" (10 ^ 400); float_record "lp_remove" 1.5])%list
     = Ok (mkVerdict false MEDIUM [dev_sell_pattern] 0%float)
  /\ PrimFloat.eqb 0 0.3 = false
  /\ PrimFloat.eqb 0 (py_min (Z2F 1 * 0.3) 1) = false.
Proof. repeat split; vm_compute; reflexivity. Qed.

(** A non-numeric [lp_remove] amount makes the sum raise [TypeError]; the
    handler swallows it, so the updates of the dev-sell step stay and the
    confidence keeps its initial value.  Such a record is outside the
    specification's [TransactionRecord], whose amount is a number. *)
Example interrupted_by_non_numeric_amount :
  detect_rug_patterns
    (replicate 4 (record "dev_sell" 1000)
     ++ [<["amount" := VStr "sixty"]> (record "lp_remove" 60)])%list
  = Ok (mkVerdict false MEDIUM [dev_sell_pattern] 0%float).
Proof. reflexivity. Qed.

(** C7. [detect_rug_patterns] returns a verdict on every finite history,
    the empty one included: no exception leaves it.  Whenever the verdict
    has no detected pattern, its risk level is LOW, [is_suspicious] is
    false and the confidence is 0.0; this is the verdict of the empty
    history. *)
Theorem detect_total_and_low_without_patterns (h : list (gmap string value)) :
  exists v : Verdict,
    detect_rug_patterns h = Ok v
    /\ (detected_patterns v = [] ->
        risk_level v = LOW /\ is_suspicious v = false
        /\ confidence v = 0%float)
    /\ detect_rug_patterns []
       = Ok (mkVerdict false LOW [] 0%float)
    /\ detect_rug_patterns [record "buy" 100; record "sell" 50]
       = Ok (mkVerdict false LOW [] 0%float).
Proof.
  destruct (detect_cases h) as [lp [Hv|[-> Hv]]];
    eexists; (split; [exact Hv|]);
    destruct (3 <? dev_sell_count h)%nat; try destruct lp; verdict_facts.
Qed.

(** ** Records of other kinds *)

Lemma filter_relevant (ty : string) (h : list (gmap string value)) :
  (forall t, has_type ty t = true -> relevant t = true) ->
  List.filter (has_type ty) (List.filter relevant h) = List.filter (has_type ty) h.
Proof.
  intros Hrel. induction h as [|t h IH]; [reflexivity|].
  cbn [List.filter]. destruct (relevant t) eqn:Ht.
  - cbn [List.filter]. rewrite IH. reflexivity.
  - rewrite IH. destruct (has_type ty t) eqn:Hty; [|reflexivity].
    rewrite (Hrel t Hty) in Ht. discriminate.
Qed.

(** C8. Records whose kind is neither [dev_sell] nor [lp_remove] -- buys,
    sells, anything else, records without a kind -- change nothing: the
    result on a history is the result on the sub-history of its [dev_sell]
    and [lp_remove] records, and such records alone trigger no pattern. *)
Theorem other_kinds_are_ignored (h : list (gmap string value)) :
  detect_rug_patterns h = detect_rug_patterns (List.filter relevant h)
  /\ (List.filter relevant h = [] ->
      detect_rug_patterns h = Ok initial_patterns).
Proof.
  assert (E : detect_rug_patterns h = detect_rug_patterns (List.filter relevant h)).
  { unfold detect_rug_patterns, try_except, try_body. cbv zeta.
    rewrite !filter_relevant; [reflexivity| |];
      intros t Ht; unfold relevant; rewrite Ht;
      first [reflexivity|apply orb_true_r]. }
  split; [exact E|].
  intros Hnil. rewrite E, Hnil. reflexivity.
Qed.

(** C10. In every verdict [detect_rug_patterns] returns, [is_suspicious]
    is true exactly when the risk level is HIGH, which is exactly when the
    liquidity-removal pattern was detected; without that pattern -- the
    dev-sell pattern alone included -- the verdict is not suspicious and its
    level is at most MEDIUM. *)
Theorem suspicious_iff_high_iff_liquidity_pattern (h : list (gmap string value)) :
  exists v : Verdict,
    detect_rug_patterns h = Ok v
    /\ (is_suspicious v = true <-> risk_level v = HIGH)
    /\ (risk_level v = HIGH <-> In lp_remove_pattern (detected_patterns v))
    /\ (detected_patterns v = [dev_sell_pattern] ->
        is_suspicious v = false /\ risk_level v = MEDIUM)
    /\ (~ In lp_remove_pattern (detected_patterns v) ->
        is_suspicious v = false
        /\ (level_rank (risk_level v) <= level_rank MEDIUM)%nat).
Proof.
  destruct (detect_cases h) as [lp [Hv|[-> Hv]]];
    eexists; (split; [exact Hv|]);
    destruct (3 <? dev_sell_count h)%nat; try destruct lp; verdict_facts.
Qed.

(** ** Slices *)

Lemma py_slice_window {A : Type} (l : list A) (i j : Z) :
  (0 <= i <= j)%Z ->
  py_slice l (Some i) (Some j) = take (Z.to_nat (j - i)) (drop (Z.to_nat i) l).
Proof.
  intros Hij. unfold py_slice, slice_bound. cbv zeta.
  destruct (Z.ltb_spec i 0); [lia|]. destruct (Z.ltb_spec j 0); [lia|].
  destruct (Z.le_gt_cases (Z.of_nat (length l)) i) as [Hlen|Hlen].
  - rewrite !(drop_ge l) by lia. rewrite !take_nil. reflexivity.
  - rewrite (Z.min_l i) by lia.
    destruct (Z.le_gt_cases j (Z.of_nat (length l))) as [Hj|Hj].
    + rewrite Z.min_l by lia. reflexivity.
    + rewrite Z.min_r by lia.
      rewrite !take_ge by (rewrite length_drop; lia). reflexivity.
Qed.

Lemma py_slice_prefix {A : Type} (l : list A) (k : Z) :
  (0 <= k)%Z -> py_slice l None (Some k) = take (Z.to_nat k) l.
Proof.
  intros Hk. unfold py_slice, slice_bound. cbv zeta.
  destruct (Z.ltb_spec k 0); [lia|]. rewrite Z.sub_0_r. change (Z.to_nat 0) with 0%nat. rewrite drop_0.
  destruct (Z.le_gt_cases k (Z.of_nat (length l))) as [Hl|Hl].
  - rewrite Z.min_l by lia. reflexivity.
  - rewrite Z.min_r by lia. rewrite !take_ge by lia. reflexivity.
Qed.

(** A negative stop drops characters from the end. *)
Lemma py_slice_prefix_neg {A : Type} (l : list A) (k : Z) :
  (k < 0)%Z ->
  py_slice l None (Some k) = take (length l - Z.to_nat (- k)) l.
Proof.
  intros Hk. unfold py_slice, slice_bound. cbv zeta.
  destruct (Z.ltb_spec k 0); [|lia]. rewrite Z.sub_0_r. change (Z.to_nat 0) with 0%nat. rewrite drop_0.
  f_equal. lia.
Qed.

Lemma py_slice_suffix {A : Type} (l : list A) (k : Z) :
  (0 <= k)%Z -> py_slice l (Some k) None = drop (Z.to_nat k) l.
Proof.
  intros Hk. unfold py_slice, slice_bound. cbv zeta.
  destruct (Z.ltb_spec k 0); [lia|].
  destruct (Z.le_gt_cases k (Z.of_nat (length l))) as [Hl|Hl].
  - rewrite Z.min_l by lia. apply take_ge. rewrite length_drop. lia.
  - rewrite Z.min_r by lia. rewrite !(drop_ge l) by lia. apply take_nil.
Qed.

(** A negative start counts from the end. *)
Lemma py_slice_suffix_neg {A : Type} (l : list A) (k : Z) :
  (k < 0)%Z ->
  py_slice l (Some k) None = drop (length l - Z.to_nat (- k)) l.
Proof.
  intros Hk. unfold py_slice, slice_bound. cbv zeta.
  destruct (Z.ltb_spec k 0); [|lia].
  replace (Z.to_nat (Z.max (k + Z.of_nat (length l)) 0))
    with (length l - Z.to_nat (- k))%nat by lia.
  apply take_ge. rewrite length_drop. lia.
Qed.

(** ** [batch_list] *)

Lemma concat_chunks {A : Type} (l : list A) (b c : nat) :
  concat (map (fun k => take b (drop (k * b) l)) (seq 0 c)) = take (c * b) l.
Proof.
  induction c as [|c IH]; [reflexivity|].
  rewrite seq_S, map_app, concat_app, IH. cbn [map concat plus].
  rewrite app_nil_r. rewrite take_take_drop. f_equal. lia.
Qed.

Lemma range_count_bounds (len bs : Z) :
  (0 < bs)%Z -> (0 < len)%Z ->
  let n := (1 + (len - 1) / bs)%Z in
  ((n - 1) * bs < len <= n * bs)%Z /\ n = ((len + bs - 1) / bs)%Z.
Proof.
  intros Hbs Hlen n. subst n.
  replace (len + bs - 1)%Z with ((len - 1) + 1 * bs)%Z by lia.
  rewrite Z.div_add by lia.
  pose proof (Z.mul_div_le (len - 1) bs Hbs).
  pose proof (Z.mul_succ_div_gt (len - 1) bs Hbs).
  split; [nia|lia].
Qed.

(** With a positive size, the batches are the consecutive windows. *)
Lemma batch_list_windows {A : Type} (items : list A) (batch_size : Z) :
  (0 < batch_size)%Z ->
  batch_list items batch_size
  = inr (map (fun k => take (Z.to_nat batch_size)
                            (drop (k * Z.to_nat batch_size) items))
             (seq 0 (Z.to_nat ((Z.of_nat (length items) + batch_size - 1)
                               / batch_size)))).
Proof.
  intros Hbs. unfold batch_list, py_range.
  destruct (Z.eqb_spec batch_size 0); [lia|].
  destruct (Z.ltb_spec 0 batch_size); [|lia].
  f_equal. rewrite map_map.
  destruct (Z.ltb_spec 0 (Z.of_nat (length items))) as [Hlen|Hlen].
  - rewrite Z.sub_0_r.
    destruct (range_count_bounds _ _ Hbs Hlen) as [_ ->].
    apply map_ext. intros k. rewrite py_slice_window by lia.
    f_equal; [lia|]. f_equal. lia.
  - replace ((Z.of_nat (length items) + batch_size - 1) / batch_size)%Z
      with 0%Z; [reflexivity|].
    symmetry. apply Z.div_small. lia.
Qed.

Lemma lookup_map {A B : Type} (f : A -> B) (l : list A) (k : nat) :
  map f l !! k = f <$> (l !! k).
Proof.
  revert k. induction l as [|a l IH]; intros [|k]; cbn; try reflexivity.
  apply IH.
Qed.

Lemma batch_count_covers (len bs : Z) :
  (0 < bs)%Z -> (0 <= len)%Z ->
  let n := ((len + bs - 1) / bs)%Z in
  (0 <= n)%Z /\ (len <= n * bs)%Z /\ ((n - 1) * bs < len)%Z.
Proof.
  intros Hbs Hlen n. subst n.
  pose proof (Z.mul_div_le (len + bs - 1) bs Hbs).
  pose proof (Z.mul_succ_div_gt (len + bs - 1) bs Hbs).
  assert (0 <= (len + bs - 1) / bs)%Z by (apply Z.div_pos; lia).
  repeat split; try nia.
Qed.

(** X1. Splitting into batches of a positive size loses nothing and keeps
    the order: the batches, put end to end, are the list again. *)
Theorem batch_list_concat {A : Type} (items : list A) (batch_size : Z) :
  (0 < batch_size)%Z ->
  exists batches : list (list A),
    batch_list items batch_size = inr batches /\ concat batches = items.
Proof.
  intros Hbs. eexists. split; [apply batch_list_windows, Hbs|].
  rewrite concat_chunks. apply take_ge.
  destruct (batch_count_covers (Z.of_nat (length items)) batch_size Hbs
              ltac:(lia)) as (Hn & Hcov & _).
  remember ((Z.of_nat (length items) + batch_size - 1) / batch_size)%Z as n.
  nia.
Qed.

Lemma batch_list_concat_witness :
  exists batches : list (list nat),
    batch_list [1; 2; 3; 4; 5; 6; 7]%nat 3 = inr batches
    /\ concat batches = [1; 2; 3; 4; 5; 6; 7]%nat.
Proof.
  apply (batch_list_concat [1; 2; 3; 4; 5; 6; 7]%nat 3). reflexivity.
Defined.

(** X2. With a positive size there are ceil(len / size) batches, none of
    them is empty, none is longer than the size, and every batch but the
    last has exactly the size. *)
Theorem batch_list_sizes {A : Type} (items : list A) (batch_size : Z) :
  (0 < batch_size)%Z ->
  exists batches : list (list A),
    batch_list items batch_size = inr batches
    /\ Z.of_nat (length batches)
       = ((Z.of_nat (length items) + batch_size - 1) / batch_size)%Z
    /\ forall (k : nat) (batch : list A),
        batches !! k = Some batch ->
        (0 < Z.of_nat (length batch) <= batch_size)%Z
        /\ (S k < length batches -> Z.of_nat (length batch) = batch_size).
Proof.
  intros Hbs. eexists. split; [apply batch_list_windows, Hbs|].
  destruct (batch_count_covers (Z.of_nat (length items)) batch_size Hbs
              ltac:(lia)) as (Hn & Hcov & Hlast).
  remember ((Z.of_nat (length items) + batch_size - 1) / batch_size)%Z as n.
  clear Heqn.
  rewrite length_map, length_seq. split; [apply Z2Nat.id, Hn|].
  intros k batch Hk. rewrite lookup_map in Hk.
  destruct (seq 0 _ !! k) as [k'|] eqn:Hseq; [|discriminate].
  apply lookup_seq in Hseq as [-> Hlt]. cbn in Hk. injection Hk as <-.
  rewrite length_take, length_drop.
  split; [nia|]. intros Hnext. nia.
Qed.

Lemma batch_list_sizes_witness :
  exists batches : list (list nat),
    batch_list [1; 2; 3; 4; 5; 6; 7]%nat 3 = inr batches
    /\ Z.of_nat (length batches) = 3%Z
    /\ forall (k : nat) (batch : list nat),
        batches !! k = Some batch ->
        (0 < Z.of_nat (length batch) <= 3)%Z
        /\ (S k < length batches -> Z.of_nat (length batch) = 3%Z).
Proof.
  apply (batch_list_sizes [1; 2; 3; 4; 5; 6; 7]%nat 3). reflexivity.
Defined.

(** X3. A batch size of 0 raises [ValueError] whatever the list; a negative
    batch size raises nothing and returns no batch at all, so every item is
    dropped. *)
Theorem batch_list_non_positive_size {A : Type} (items : list A) :
  batch_list items 0 = inl ValueError
  /\ forall batch_size : Z, (batch_size < 0)%Z -> batch_list items batch_size = inr [].
Proof.
  split; [reflexivity|].
  intros bs Hbs. unfold batch_list, py_range.
  destruct (Z.eqb_spec bs 0); [lia|].
  destruct (Z.ltb_spec 0 bs); [lia|].
  destruct (Z.ltb_spec (Z.of_nat (length items)) 0); [lia|]. reflexivity.
Qed.

(** ** [shorten_address] *)

Lemma shorten_address_long {char : Type} (dot : char)
      (address : list char) (chars : Z) :
  (0 < chars)%Z -> (2 * chars < Z.of_nat (length address))%Z ->
  shorten_address dot address chars
  = (take (Z.to_nat chars) address
     ++ [dot; dot; dot]
     ++ drop (length address - Z.to_nat chars) address)%list.
Proof.
  intros Hc Hlen. unfold shorten_address.
  destruct (Z.leb_spec (Z.of_nat (length address)) (chars * 2)); [lia|].
  rewrite py_slice_prefix by lia. rewrite py_slice_suffix_neg by lia.
  rewrite Z.opp_involutive. reflexivity.
Qed.

(** X4. An address longer than twice [chars] (with [chars] positive) is
    shortened to its first [chars] characters, three dots and its last
    [chars] characters, [2 * chars + 3] characters in all; an address of
    at most twice [chars] characters is returned as it is. *)
Theorem shorten_address_shape {char : Type} (dot : char)
        (address : list char) (chars : Z) :
  (0 < chars)%Z ->
  ((2 * chars < Z.of_nat (length address))%Z ->
   shorten_address dot address chars
   = (take (Z.to_nat chars) address
      ++ [dot; dot; dot]
      ++ drop (length address - Z.to_nat chars) address)%list
   /\ Z.of_nat (length (shorten_address dot address chars)) = (2 * chars + 3)%Z)
  /\ ((Z.of_nat (length address) <= 2 * chars)%Z ->
      shorten_address dot address chars = address).
Proof.
  intros Hc. split; intros Hlen.
  - rewrite (shorten_address_long dot address chars Hc Hlen).
    split; [reflexivity|].
    rewrite !length_app, length_take, length_drop. cbn [length]. lia.
  - unfold shorten_address.
    destruct (Z.leb_spec (Z.of_nat (length address)) (chars * 2));
      [reflexivity|lia].
Qed.

Lemma shorten_address_shape_witness :
  shorten_address ascii_dot (chars_of "So11111111111111111111111111111111111111112") 4
  = chars_of "So11...1112".
Proof.
  destruct (shorten_address_shape ascii_dot
              (chars_of "So11111111111111111111111111111111111111112")
              4 eq_refl) as [Hlong _].
  destruct (Hlong eq_refl) as [-> _]. reflexivity.
Defined.

(** X5. Shortening can lengthen: with [chars] positive the result has at
    most [2 * chars + 3] characters, and it is longer than the address
    exactly when the address has [2 * chars + 1] or [2 * chars + 2]
    characters. *)
Theorem shorten_address_length {char : Type} (dot : char)
        (address : list char) (chars : Z) :
  (0 < chars)%Z ->
  (Z.of_nat (length (shorten_address dot address chars)) <= 2 * chars + 3)%Z
  /\ ((length address < length (shorten_address dot address chars))%nat
      <-> (Z.of_nat (length address) = 2 * chars + 1
           \/ Z.of_nat (length address) = 2 * chars + 2)%Z).
Proof.
  intros Hc.
  destruct (Z.le_gt_cases (Z.of_nat (length address)) (2 * chars)) as [H|H].
  - unfold shorten_address.
    destruct (Z.leb_spec (Z.of_nat (length address)) (chars * 2)); lia.
  - rewrite (shorten_address_long dot address chars Hc) by lia.
    rewrite !length_app, length_take, length_drop. cbn [length]. lia.
Qed.

Lemma shorten_address_length_witness :
  (length (chars_of "ABCDEFGHI")
   < length (shorten_address ascii_dot (chars_of "ABCDEFGHI") 4))%nat.
Proof.
  apply (shorten_address_length ascii_dot
           (chars_of "ABCDEFGHI") 4 eq_refl).
  left. reflexivity.
Defined.

(** X6. With [chars = 0] nothing is shortened: the slice [address[-0:]]
    is the whole address, so a non-empty address comes back whole behind
    three dots. *)
Theorem shorten_address_zero_chars {char : Type} (dot : char)
        (address : list char) :
  address <> [] ->
  shorten_address dot address 0 = ([dot; dot; dot] ++ address)%list.
Proof.
  intros Hne. unfold shorten_address.
  destruct (Z.leb_spec (Z.of_nat (length address)) (0 * 2)) as [H|H].
  - destruct address; [congruence|]. cbn [length] in H. lia.
  - rewrite py_slice_prefix by lia. change (- 0)%Z with 0%Z.
    rewrite py_slice_suffix by lia. reflexivity.
Qed.

Lemma shorten_address_zero_chars_witness :
  shorten_address ascii_dot (chars_of "ABCDEFGH") 0
  = chars_of "...ABCDEFGH".
Proof.
  rewrite (shorten_address_zero_chars ascii_dot
             (chars_of "ABCDEFGH")); [reflexivity|].
  discriminate.
Defined.

(** ** [sanitize_text_for_tweet] *)

Section TextFacts.

Context {char : Type}.
Variable is_space : char -> bool.
Variable sp : char.
Variable dot : char.

Local Abbreviation no_space := (forallb (fun c => negb (is_space c))).
Local Abbreviation words := (forallb (is_word is_space)).
Local Abbreviation normalise t := (py_join [sp] (py_split is_space t)).

Lemma is_word_cons (c : char) (w : list char) :
  no_space (c :: w) = true -> is_word is_space (c :: w) = true.
Proof. intros H. unfold is_word. rewrite H. reflexivity. Qed.

Lemma is_word_inv (w : list char) :
  is_word is_space w = true -> w <> [] /\ no_space w = true.
Proof.
  unfold is_word. intros H. apply andb_true_iff in H as [Hlen Hns].
  split; [|exact Hns]. intros ->. discriminate.
Qed.

Lemma no_space_snoc (w : list char) (c : char) :
  no_space w = true -> is_space c = false -> no_space (w ++ [c]) = true.
Proof.
  intros Hw Hc. rewrite forallb_app, Hw. cbn. rewrite Hc. reflexivity.
Qed.

(** [split] returns words. *)
Lemma split_from_words (text word : list char) :
  no_space word = true -> words (split_from is_space word text) = true.
Proof.
  revert word. induction text as [|c rest IH]; intros word Hword.
  - destruct word as [|a w]; [reflexivity|].
    cbn [split_from forallb]. rewrite (is_word_cons _ _ Hword). reflexivity.
  - cbn [split_from]. destruct (is_space c) eqn:Hc.
    + destruct word as [|a w]; [apply IH; reflexivity|].
      cbn [forallb]. rewrite (is_word_cons _ _ Hword). apply IH. reflexivity.
    + apply IH, no_space_snoc; assumption.
Qed.

Lemma split_from_no_space (w rest word : list char) :
  no_space w = true ->
  split_from is_space word (w ++ rest) = split_from is_space (word ++ w) rest.
Proof.
  revert word. induction w as [|c w IH]; intros word Hw.
  - rewrite app_nil_r. reflexivity.
  - cbn [forallb] in Hw. apply andb_true_iff in Hw as [Hc Hw].
    apply negb_true_iff in Hc. cbn [app split_from]. rewrite Hc.
    rewrite IH by exact Hw. rewrite <- app_assoc. reflexivity.
Qed.

(** Splitting words joined by single spaces gives the words back. *)
Lemma split_join (ws : list (list char)) :
  is_space sp = true -> words ws = true ->
  py_split is_space (py_join [sp] ws) = ws.
Proof.
  intros Hsp. unfold py_split. induction ws as [|w ws IH]; intros Hws.
  - reflexivity.
  - cbn [forallb] in Hws. apply andb_true_iff in Hws as [Hw Hws].
    apply is_word_inv in Hw as [Hne Hns].
    destruct ws as [|w2 ws].
    + cbn [py_join]. rewrite <- (app_nil_r w) at 1.
      rewrite split_from_no_space by exact Hns. cbn [app split_from].
      destruct w; [congruence|reflexivity].
    + change (py_join [sp] (w :: w2 :: ws))
        with (w ++ sp :: py_join [sp] (w2 :: ws))%list.
      rewrite split_from_no_space by exact Hns. cbn [app split_from].
      rewrite Hsp. rewrite (IH Hws). destruct w; [congruence|reflexivity].
Qed.

Lemma in_join_words (ws : list (list char)) (c : char) :
  words ws = true -> In c (py_join [sp] ws) -> is_space c = true -> c = sp.
Proof.
  induction ws as [|w ws IH]; intros Hws Hin Hc; [destruct Hin|].
  cbn [forallb] in Hws. apply andb_true_iff in Hws as [Hw Hws].
  apply is_word_inv in Hw as [_ Hns].
  assert (Hw : In c w -> c = sp).
  { intros Hcw. rewrite forallb_forall in Hns. specialize (Hns c Hcw).
    rewrite Hc in Hns. discriminate. }
  destruct ws as [|w2 ws]; [exact (Hw Hin)|].
  change (py_join [sp] (w :: w2 :: ws))
    with (w ++ sp :: py_join [sp] (w2 :: ws))%list in Hin.
  apply in_app_or in Hin as [Hin|[Hin|Hin]];
    [exact (Hw Hin)|congruence|exact (IH Hws Hin Hc)].
Qed.

(** A prefix of joined words followed by the dots is again a text of
    joined words. *)
Lemma take_join_dots (ws : list (list char)) (j : nat) :
  is_space dot = false -> words ws = true ->
  exists ws' : list (list char),
    ws' <> [] /\ words ws' = true
    /\ (take j (py_join [sp] ws) ++ dots dot)%list = py_join [sp] ws'.
Proof.
  intros Hdot.
  assert (Hdots : forall w, no_space w = true ->
             is_word is_space (w ++ dots dot) = true).
  { intros w Hw. unfold is_word. rewrite forallb_app, Hw, length_app.
    cbn. rewrite Hdot. rewrite Nat.add_comm. reflexivity. }
  assert (Htake : forall w k, no_space w = true -> no_space (take k w) = true).
  { intros w k Hw. rewrite forallb_forall in *. intros c Hc. apply Hw.
    apply list_elem_of_In. apply list_elem_of_In in Hc.
    exact (subseteq_take k w c Hc). }
  revert j. induction ws as [|w ws IH]; intros j Hws.
  - exists [dots dot]. cbn [py_join]. rewrite take_nil. split; [discriminate|].
    split; [|reflexivity]. cbn [forallb].
    pose proof (Hdots [] eq_refl) as H0. cbn [app] in H0. rewrite H0. reflexivity.
  - cbn [forallb] in Hws. apply andb_true_iff in Hws as [Hw Hws].
    pose proof Hw as Hw'. apply is_word_inv in Hw' as [Hne Hns].
    destruct ws as [|w2 ws].
    + exists [take j w ++ dots dot]%list. split; [discriminate|].
      split; [|reflexivity]. cbn [forallb].
      rewrite (Hdots _ (Htake _ j Hns)). reflexivity.
    + change (py_join [sp] (w :: w2 :: ws))
        with (w ++ sp :: py_join [sp] (w2 :: ws))%list.
      destruct (Nat.le_gt_cases j (length w)) as [Hj|Hj].
      * rewrite take_app_le by exact Hj.
        exists [take j w ++ dots dot]%list. split; [discriminate|].
        split; [|reflexivity]. cbn [forallb].
        rewrite (Hdots _ (Htake _ j Hns)). reflexivity.
      * rewrite take_app_ge by lia.
        destruct (j - length w)%nat as [|j'] eqn:Hj'; [lia|]. cbn [take].
        destruct (IH j' Hws) as (ws' & Hne' & Hws' & Heq).
        exists (w :: ws'). split; [discriminate|]. split.
        { cbn [forallb]. rewrite Hw, Hws'. reflexivity. }
        destruct ws' as [|w' ws']; [congruence|].
        change (py_join [sp] (w :: w' :: ws'))
          with (w ++ sp :: py_join [sp] (w' :: ws'))%list.
        rewrite <- Heq. rewrite <- app_assoc. reflexivity.
Qed.

(** Whatever the text, the result is a text of joined words. *)
Lemma sanitize_joined (text : list char) (max_length : Z) :
  (3 <= max_length)%Z -> is_space dot = false ->
  exists ws : list (list char),
    words ws = true
    /\ sanitize_text_for_tweet is_space sp dot text max_length = py_join [sp] ws.
Proof.
  intros Hm Hdot. unfold sanitize_text_for_tweet. cbv zeta.
  pose proof (split_from_words text [] eq_refl) as Hws.
  fold (py_split is_space text) in Hws.
  destruct (Z.ltb_spec max_length (Z.of_nat (length (normalise text)))).
  - rewrite py_slice_prefix by lia.
    destruct (take_join_dots (py_split is_space text)
                (Z.to_nat (max_length - 3)) Hdot Hws) as (ws' & _ & Hws' & Heq).
    exists ws'. split; [exact Hws'|exact Heq].
  - exists (py_split is_space text). split; [exact Hws|reflexivity].
Qed.

Lemma sanitize_length_le (text : list char) (max_length : Z) :
  (3 <= max_length)%Z ->
  (Z.of_nat (length (sanitize_text_for_tweet is_space sp dot text max_length))
   <= max_length)%Z.
Proof.
  intros Hm. unfold sanitize_text_for_tweet. cbv zeta.
  destruct (Z.ltb_spec max_length (Z.of_nat (length (normalise text)))); [|lia].
  rewrite py_slice_prefix by lia.
  rewrite length_app, length_take. cbn [dots length]. lia.
Qed.

(** X7. With a limit of at least 3, the sanitized text never has more
    characters than the limit; a text that had to be cut has exactly
    [max_length] characters, the last three being the dots. *)
Theorem sanitize_within_limit (text : list char) (max_length : Z) :
  (3 <= max_length)%Z ->
  (Z.of_nat (length (sanitize_text_for_tweet is_space sp dot text max_length))
   <= max_length)%Z
  /\ ((max_length < Z.of_nat (length (normalise text)))%Z ->
      sanitize_text_for_tweet is_space sp dot text max_length
      = (take (Z.to_nat (max_length - 3)) (normalise text) ++ [dot; dot; dot])%list
      /\ Z.of_nat (length (sanitize_text_for_tweet is_space sp dot text max_length))
         = max_length).
Proof.
  intros Hm. split; [apply sanitize_length_le, Hm|].
  intros Hlong. unfold sanitize_text_for_tweet. cbv zeta.
  destruct (Z.ltb_spec max_length (Z.of_nat (length (normalise text)))); [|lia].
  rewrite py_slice_prefix by lia. split; [reflexivity|].
  rewrite length_app, length_take. cbn [dots length]. lia.
Qed.

(** X8. With a limit below 3 the limit is not kept: a text whose
    normalised form is longer than the limit loses only [3 - limit]
    characters (the slice bound is negative) and gets the three dots, so the
    result is longer than the limit. *)
Theorem sanitize_small_limit_exceeded (text : list char) (max_length : Z) :
  (max_length < 3)%Z ->
  (max_length < Z.of_nat (length (normalise text)))%Z ->
  Z.of_nat (length (sanitize_text_for_tweet is_space sp dot text max_length))
  = (Z.max (Z.of_nat (length (normalise text)) - (3 - max_length)) 0 + 3)%Z
  /\ (max_length
      < Z.of_nat (length (sanitize_text_for_tweet is_space sp dot text max_length)))%Z.
Proof.
  intros Hm Hlen. unfold sanitize_text_for_tweet. cbv zeta.
  destruct (Z.ltb_spec max_length (Z.of_nat (length (normalise text)))); [|lia].
  rewrite py_slice_prefix_neg by lia.
  rewrite length_app, length_take. cbn [dots length]. lia.
Qed.

(** X9. Sanitizing is idempotent for a limit of at least 3: a sanitized
    text, truncated or not, is left unchanged by sanitizing it again. *)
Theorem sanitize_idempotent (text : list char) (max_length : Z) :
  (3 <= max_length)%Z -> is_space sp = true -> is_space dot = false ->
  sanitize_text_for_tweet is_space sp dot
    (sanitize_text_for_tweet is_space sp dot text max_length) max_length
  = sanitize_text_for_tweet is_space sp dot text max_length.
Proof.
  intros Hm Hsp Hdot.
  pose proof (sanitize_length_le text max_length Hm) as Hlen.
  destruct (sanitize_joined text max_length Hm Hdot) as (ws & Hws & Heq).
  rewrite Heq in *. unfold sanitize_text_for_tweet at 1. cbv zeta.
  rewrite (split_join ws Hsp Hws).
  destruct (Z.ltb_spec max_length (Z.of_nat (length (py_join [sp] ws))));
    [lia|reflexivity].
Qed.

(** X10. The only whitespace left in a sanitized text (limit at least 3)
    is the plain space: tabs, newlines and the like never survive. *)
Theorem sanitize_only_plain_spaces (text : list char) (max_length : Z) (c : char) :
  (3 <= max_length)%Z -> is_space dot = false ->
  In c (sanitize_text_for_tweet is_space sp dot text max_length) ->
  is_space c = true -> c = sp.
Proof.
  intros Hm Hdot Hin Hc.
  destruct (sanitize_joined text max_length Hm Hdot) as (ws & Hws & Heq).
  rewrite Heq in Hin. exact (in_join_words ws c Hws Hin Hc).
Qed.

(** X11. A text whose normalised form fits the limit keeps exactly its
    words: splitting the sanitized text gives the words of the text. *)
Theorem sanitize_keeps_words (text : list char) (max_length : Z) :
  is_space sp = true ->
  (Z.of_nat (length (normalise text)) <= max_length)%Z ->
  py_split is_space (sanitize_text_for_tweet is_space sp dot text max_length)
  = py_split is_space text.
Proof.
  intros Hsp Hlen. unfold sanitize_text_for_tweet. cbv zeta.
  destruct (Z.ltb_spec max_length (Z.of_nat (length (normalise text)))); [lia|].
  apply (split_join _ Hsp). exact (split_from_words text [] eq_refl).
Qed.

End TextFacts.

Lemma sanitize_within_limit_witness :
  (Z.of_nat (length (sanitize_text_for_tweet ascii_is_space ascii_space ascii_dot
                       (chars_of "  gm   trenchers, stay   safe  ") 10))
   <= 10)%Z.
Proof.
  apply (sanitize_within_limit ascii_is_space ascii_space ascii_dot
           (chars_of "  gm   trenchers, stay   safe  ") 10).
  discriminate.
Defined.

Lemma sanitize_small_limit_exceeded_witness :
  Z.of_nat (length (sanitize_text_for_tweet ascii_is_space ascii_space ascii_dot
                      (chars_of "hello big world") 2))
  = 17%Z
  /\ (2 < Z.of_nat (length (sanitize_text_for_tweet ascii_is_space ascii_space
                              ascii_dot (chars_of "hello big world") 2)))%Z.
Proof.
  apply (sanitize_small_limit_exceeded ascii_is_space ascii_space ascii_dot
           (chars_of "hello big world") 2); reflexivity.
Defined.

Lemma sanitize_idempotent_witness :
  sanitize_text_for_tweet ascii_is_space ascii_space ascii_dot
    (sanitize_text_for_tweet ascii_is_space ascii_space ascii_dot
       (chars_of "  gm   trenchers, stay   safe  ") 10) 10
  = sanitize_text_for_tweet ascii_is_space ascii_space ascii_dot
      (chars_of "  gm   trenchers, stay   safe  ") 10.
Proof.
  apply (sanitize_idempotent ascii_is_space ascii_space ascii_dot
           (chars_of "  gm   trenchers, stay   safe  ") 10);
    [discriminate|reflexivity|reflexivity].
Defined.

Lemma sanitize_only_plain_spaces_witness :
  ascii_space = ascii_space.
Proof.
  apply (sanitize_only_plain_spaces ascii_is_space ascii_space ascii_dot
           (chars_of "gm" ++ [Ascii.ascii_of_nat 9] ++ chars_of "frens")%list
           280 ascii_space);
    [discriminate|reflexivity|simpl; tauto|reflexivity].
Defined.

Lemma sanitize_keeps_words_witness :
  py_split ascii_is_space
    (sanitize_text_for_tweet ascii_is_space ascii_space ascii_dot
       (chars_of "  gm   trenchers  ") 280)
  = py_split ascii_is_space (chars_of "  gm   trenchers  ").
Proof.
  apply (sanitize_keeps_words ascii_is_space ascii_space ascii_dot
           (chars_of "  gm   trenchers  ") 280);
    [reflexivity|discriminate].
Defined.

(** ** The emoji of a score *)

Lemma get_risk_emoji_Z2F (n : Z) :
  (0 <= n <= 100)%Z ->
  get_risk_emoji (Z2F n)
  = if (n <? 30)%Z then "🟢" else if (n <? 70)%Z then "🟡" else "🔴".
Proof.
  intros Hn.
  apply (upto_Forall
           (fun n => get_risk_emoji (Z2F n)
                     = if (n <? 30)%Z then "🟢"
                       else if (n <? 70)%Z then "🟡" else "🔴") 101);
    [|lia].
  unfold upto. cbn [seq map]. repeat (constructor; [reflexivity|]). constructor.
Qed.

Lemma emoji_of_capped (t : Z) :
  (0 <= t <= 130)%Z ->
  get_risk_emoji (Z2F (Z.min t 100))
  = if (t <? 30)%Z then "🟢" else if (t <? 70)%Z then "🟡" else "🔴".
Proof.
  intros Ht. rewrite get_risk_emoji_Z2F by lia.
  destruct (Z.ltb_spec t 30), (Z.ltb_spec (Z.min t 100) 30); try lia;
    try reflexivity.
  destruct (Z.ltb_spec t 70), (Z.ltb_spec (Z.min t 100) 70); try lia;
    reflexivity.
Qed.

(** X12. The emoji of the score of a numeric input is decided by the sum
    of the penalties: green below 30, yellow from 30 to 69, red from 70 on
    (the cap at 100 changes nothing). *)
Theorem score_emoji_by_penalties (factors : gmap string value) :
  numeric_input factors = true ->
  exists score : float,
    calculate_risk_score factors = Ok score
    /\ get_risk_emoji score
       = if (Tier.total factors <? 30)%Z then "🟢"
         else if (Tier.total factors <? 70)%Z then "🟡" else "🔴".
Proof.
  intros Hnum. eexists. split; [apply calculate_risk_score_total, Hnum|].
  apply emoji_of_capped, Tier_total_range.
Qed.

Lemma score_emoji_by_penalties_witness :
  exists score : float,
    calculate_risk_score (to_dict (mkRiskFactors true true 75 65 2 false 100000))
    = Ok score
    /\ get_risk_emoji score = "🟡".
Proof.
  apply (score_emoji_by_penalties
           (to_dict (mkRiskFactors true true 75 65 2 false 100000))).
  reflexivity.
Defined.

(** X13. A token whose mint authority is not revoked -- the flag is
    false, falsy or absent -- is never rated green, whatever its other
    numeric factors. *)
Theorem active_mint_authority_never_green (factors : gmap string value) :
  numeric_input factors = true ->
  truthy (dict_get factors "mint_authority_revoked" (VBool false)) = false ->
  exists score : float,
    calculate_risk_score factors = Ok score
    /\ get_risk_emoji score <> "🟢".
Proof.
  intros Hnum Hmint.
  eexists. split; [apply calculate_risk_score_total, Hnum|].
  rewrite emoji_of_capped by apply Tier_total_range.
  assert (30 <= Tier.total factors)%Z.
  { unfold Tier.total. unfold Tier.flag at 1. rewrite Hmint. cbn [negb].
    unfold Tier.flag, Tier.holder, Tier.top10, Tier.dev, Tier.liquidity.
    repeat match goal with |- context [if ?c then _ else _] => destruct c end;
      lia. }
  destruct (Z.ltb_spec (Tier.total factors) 30); [lia|].
  destruct (Tier.total factors <? 70)%Z; discriminate.
Qed.

Lemma active_mint_authority_never_green_witness :
  exists score : float,
    calculate_risk_score
      (<["holder_count" := VNum (of_Z 5000)]>
       (<["liquidity_locked" := VBool true]>
       (<["freeze_authority_revoked" := VBool true]>
       (<["liquidity_usd" := VNum (of_Z 900000)]> ∅)))) = Ok score
    /\ get_risk_emoji score <> "🟢".
Proof.
  apply (active_mint_authority_never_green
    (<["holder_count" := VNum (of_Z 5000)]>
     (<["liquidity_locked" := VBool true]>
     (<["freeze_authority_revoked" := VBool true]>
     (<["liquidity_usd" := VNum (of_Z 900000)]> ∅)))));
    reflexivity.
Defined.

(** X14. The emoji follows the risk: when one field of a typed input moves
    in the risk-increasing direction, the emoji of the score stays or moves
    towards red, never towards green. *)
Theorem emoji_monotone_in_each_factor (safer riskier : RiskFactors) :
  one_field_riskier safer riskier ->
  exists s_safer s_riskier : float,
    calculate_risk_score (to_dict safer) = Ok s_safer
    /\ calculate_risk_score (to_dict riskier) = Ok s_riskier
    /\ (emoji_rank (get_risk_emoji s_safer)
        <= emoji_rank (get_risk_emoji s_riskier))%nat.
Proof.
  intros H.
  pose proof (total_monotone _ _ (one_field_riskier_or_equal _ _ H)) as Hle.
  eexists. eexists.
  split; [apply calculate_risk_score_total, to_dict_numeric|].
  split; [apply calculate_risk_score_total, to_dict_numeric|].
  rewrite !emoji_of_capped by apply Tier_total_range.
  destruct (Z.ltb_spec (Tier.total (to_dict safer)) 30),
           (Z.ltb_spec (Tier.total (to_dict riskier)) 30),
           (Z.ltb_spec (Tier.total (to_dict safer)) 70),
           (Z.ltb_spec (Tier.total (to_dict riskier)) 70);
    try lia; cbn; lia.
Qed.

Lemma emoji_monotone_in_each_factor_witness :
  exists s_safer s_riskier : float,
    calculate_risk_score (to_dict (mkRiskFactors true true 120 10 2 true 100000))
    = Ok s_safer
    /\ calculate_risk_score (to_dict (mkRiskFactors false true 120 10 2 true 100000))
       = Ok s_riskier
    /\ (emoji_rank (get_risk_emoji s_safer)
        <= emoji_rank (get_risk_emoji s_riskier))%nat.
Proof.
  apply (emoji_monotone_in_each_factor
           (mkRiskFactors true true 120 10 2 true 100000)
           (mkRiskFactors false true 120 10 2 true 100000)).
  apply Riskier_mint.
Defined.

(** ** More on the scorer *)

Lemma dict_get_insert_ne (factors : gmap string value) (k k' : string)
      (v d : value) :
  k <> k' -> dict_get (<[k := v]> factors) k' d = dict_get factors k' d.
Proof. intros Hne. unfold dict_get. rewrite lookup_insert_ne by exact Hne. reflexivity. Qed.

(** X15. Keys other than the seven the scorer reads are ignored: storing
    any value under such a key -- for instance under ['top10_holdings_pct'],
    spelled without the underscore the code expects -- leaves the result
    unchanged. *)
Theorem score_ignores_other_keys (factors : gmap string value)
        (k : string) (v : value) :
  ~ In k scorer_keys ->
  calculate_risk_score (<[k := v]> factors) = calculate_risk_score factors.
Proof.
  intros Hk. unfold calculate_risk_score, penalty_sum.
  rewrite !(dict_get_insert_ne factors k); [reflexivity|..];
    intros ->; apply Hk; unfold scorer_keys; simpl; tauto.
Qed.

Lemma score_ignores_other_keys_witness :
  calculate_risk_score (<["top10_holdings_pct" := VNum (of_Z 95)]> (to_dict all_clean))
  = calculate_risk_score (to_dict all_clean).
Proof.
  apply (score_ignores_other_keys (to_dict all_clean)
           "top10_holdings_pct" (VNum (of_Z 95))).
  unfold scorer_keys. simpl. intros H.
  repeat (destruct H as [H|H]; [discriminate H|]). exact H.
Defined.

Lemma numeric_input_fields (factors : gmap string value) :
  numeric_input factors
  = forallb (fun k => is_numeric (dict_get factors k (VNum (of_Z 0)))) numeric_keys.
Proof.
  unfold numeric_input, numeric_keys, dict_get. cbn [forallb].
  destruct (factors !! "holder_count"), (factors !! "top_10_holdings_pct"),
    (factors !! "dev_holdings_pct"), (factors !! "liquidity_usd"); reflexivity.
Qed.

Lemma as_num_raises (v : value) (e : exn) :
  as_num v = Raise e -> e = TypeError.
Proof. destruct v; cbn; congruence. Qed.

Lemma holder_block_runs (v : value) (score : float) :
  (is_numeric v = true /\ exists s, holder_block v score = Ok s)
  \/ (is_numeric v = false /\ holder_block v score = Raise TypeError).
Proof.
  unfold is_numeric, holder_block, py_lt.
  destruct (as_num v) as [x|e] eqn:Hv; cbn [mbind result_bind];
    [left|apply as_num_raises in Hv; subst e; right; tauto].
  split; [reflexivity|].
  destruct (ltb x (of_Z 50)); [eauto|]. cbn [mbind result_bind].
  destruct (ltb x (of_Z 100)); eauto.
Qed.

Lemma top10_block_runs (v : value) (score : float) :
  (is_numeric v = true /\ exists s, top10_block v score = Ok s)
  \/ (is_numeric v = false /\ top10_block v score = Raise TypeError).
Proof.
  unfold is_numeric, top10_block, py_gt.
  destruct (as_num v) as [x|e] eqn:Hv; cbn [mbind result_bind];
    [left|apply as_num_raises in Hv; subst e; right; tauto].
  split; [reflexivity|].
  destruct (ltb (of_Z 80) x); [eauto|]. cbn [mbind result_bind].
  destruct (ltb (of_Z 60) x); [eauto|]. cbn [mbind result_bind].
  destruct (ltb (of_Z 40) x); eauto.
Qed.

Lemma dev_block_runs (v : value) (score : float) :
  (is_numeric v = true /\ exists s, dev_block v score = Ok s)
  \/ (is_numeric v = false /\ dev_block v score = Raise TypeError).
Proof.
  unfold is_numeric, dev_block, py_gt.
  destruct (as_num v) as [x|e] eqn:Hv; cbn [mbind result_bind];
    [left|apply as_num_raises in Hv; subst e; right; tauto].
  split; [reflexivity|].
  destruct (ltb (of_Z 20) x); [eauto|]. cbn [mbind result_bind].
  destruct (ltb (of_Z 10) x); eauto.
Qed.

Lemma liquidity_block_runs (v : value) (score : float) :
  (is_numeric v = true /\ exists s, liquidity_block v score = Ok s)
  \/ (is_numeric v = false /\ liquidity_block v score = Raise TypeError).
Proof.
  unfold is_numeric, liquidity_block, py_lt.
  destruct (as_num v) as [x|e] eqn:Hv; cbn [mbind result_bind];
    [left|apply as_num_raises in Hv; subst e; right; tauto].
  split; [reflexivity|].
  destruct (ltb x (of_Z 5000)); eauto.
Qed.

(** X16. [calculate_risk_score] raises [TypeError] exactly when one of its
    four numeric fields holds something that is not a number ([None], a
    string); it has no handler of its own.  Whatever the three flags hold
    never makes it fail. *)
Theorem score_raises_iff_not_numeric (factors : gmap string value) :
  calculate_risk_score factors = Raise TypeError
  <-> numeric_input factors = false.
Proof.
  split.
  - intros Hraise. destruct (numeric_input factors) eqn:Hnum; [|reflexivity].
    rewrite (calculate_risk_score_total _ Hnum) in Hraise. discriminate.
  - rewrite numeric_input_fields. unfold numeric_keys. cbn [forallb].
    unfold calculate_risk_score, penalty_sum. cbv zeta.
    intros Hnum.
    match goal with |- context [holder_block ?v ?s] =>
      destruct (holder_block_runs v s) as [[Hv (s1 & ->)]|[Hv ->]];
        [rewrite Hv in Hnum|reflexivity] end.
    cbn [mbind result_bind].
    match goal with |- context [top10_block ?v ?s] =>
      destruct (top10_block_runs v s) as [[Hv' (s2 & ->)]|[Hv' ->]];
        [rewrite Hv' in Hnum|reflexivity] end.
    cbn [mbind result_bind].
    match goal with |- context [dev_block ?v ?s] =>
      destruct (dev_block_runs v s) as [[Hv'' (s3 & ->)]|[Hv'' ->]];
        [rewrite Hv'' in Hnum|reflexivity] end.
    cbn [mbind result_bind].
    match goal with |- context [liquidity_block ?v ?s] =>
      destruct (liquidity_block_runs v s) as [[Hv''' (s4 & ->)]|[Hv''' ->]];
        [rewrite Hv''' in Hnum|reflexivity] end.
    discriminate.
Qed.

(** X17. The score of a numeric input is a whole number and a multiple of
    5: one of 0, 5, ..., 100. *)
Theorem score_multiple_of_5 (factors : gmap string value) :
  numeric_input factors = true ->
  exists n : Z,
    (0 <= n <= 20)%Z /\ calculate_risk_score factors = Ok (Z2F (5 * n)).
Proof.
  intros Hnum. rewrite (calculate_risk_score_total _ Hnum).
  assert (H5 : exists m, (0 <= m /\ Tier.total factors = 5 * m)%Z).
  { unfold Tier.total, Tier.flag, Tier.holder, Tier.top10, Tier.dev,
      Tier.liquidity.
    repeat match goal with |- context [if ?c then _ else _] => destruct c end;
      match goal with |- exists m, (_ /\ ?t = _)%Z =>
        let q := eval vm_compute in (t / 5)%Z in exists q end;
      (split; [lia|reflexivity]). }
  destruct H5 as (m & Hm & Heq). rewrite Heq.
  exists (Z.min m 20). split; [lia|]. f_equal. f_equal. lia.
Qed.

Lemma score_multiple_of_5_witness :
  exists n : Z,
    (0 <= n <= 20)%Z
    /\ calculate_risk_score (to_dict (mkRiskFactors true false 75 65 2 true 100))
       = Ok (Z2F (5 * n)).
Proof.
  apply (score_multiple_of_5
           (to_dict (mkRiskFactors true false 75 65 2 true 100))).
  reflexivity.
Defined.

(** ** More on the detector *)

Lemma as_addend_numeric (v : value) :
  (exists x, as_num v = Ok x) -> exists a, as_addend v = Ok a.
Proof.
  intros [x Hx]. destruct v as [|b|[q| | |]|s|f]; try discriminate; cbn; eauto.
Qed.

Lemma as_addend_not_numeric (v : value) (e : exn) :
  as_num v = Raise e -> as_addend v = Raise TypeError.
Proof.
  destruct v as [|b|[q| | |]|s|f]; try discriminate; reflexivity.
Qed.

Lemma py_sum_from_raises (items : list (gmap string value)) (acc : addend) :
  forallb (fun t => bool_decide (is_Some (amount_of t))) items = false ->
  exists e : exn, py_sum_from acc (map get_amount items) = Raise e.
Proof.
  revert acc. induction items as [|t items IH]; intros acc Hall.
  - discriminate.
  - cbn [forallb] in Hall. cbn [map py_sum_from].
    unfold amount_of in Hall. fold (get_amount t) in Hall.
    destruct (as_num (get_amount t)) as [x|e] eqn:Hx.
    + destruct (as_addend_numeric (get_amount t)) as [a ->]; [eauto|].
      cbn [mbind result_bind].
      destruct (py_add acc a) as [acc'|e]; cbn [mbind result_bind]; [|eauto].
      rewrite bool_decide_eq_true_2 in Hall by eauto. apply IH, Hall.
    + rewrite (as_addend_not_numeric _ _ Hx). cbn [mbind result_bind]. eauto.
Qed.

Lemma not_numeric_amounts_filter (h : list (gmap string value)) :
  numeric_amounts h = false ->
  forallb (fun t => bool_decide (is_Some (amount_of t)))
          (List.filter (has_type "lp_remove") h) = false.
Proof.
  unfold numeric_amounts. induction h as [|t h IH]; intros Hall.
  - discriminate.
  - cbn [forallb] in Hall. cbn [List.filter].
    destruct (has_type "lp_remove" t); cbn [implb] in Hall.
    + cbn [forallb].
      destruct (bool_decide (is_Some (amount_of t))); [apply IH, Hall|reflexivity].
    + apply IH, Hall.
Qed.

Lemma detect_interrupted (h : list (gmap string value)) :
  numeric_amounts h = false ->
  detect_rug_patterns h = Ok (interrupted_verdict (3 <? dev_sell_count h)%nat).
Proof.
  intros Hnum.
  destruct (py_sum_from_raises _ (Exact 0) (not_numeric_amounts_filter h Hnum))
    as [e He].
  apply (detect_of_raise h e He).
Qed.

(** X18. One [lp_remove] record whose amount is not a number hides every
    liquidity removal: the sum raises, the handler swallows the exception,
    and the verdict is not suspicious, not HIGH, without the liquidity
    pattern and with confidence 0.0, however large the other amounts are.
    The dev-sell pattern is still reported, with level MEDIUM, when there
    are more than 3 dev sells. *)
Theorem non_numeric_amount_masks_liquidity_removal (h : list (gmap string value)) :
  numeric_amounts h = false ->
  exists v : Verdict,
    detect_rug_patterns h = Ok v
    /\ is_suspicious v = false
    /\ risk_level v <> HIGH
    /\ ~ In lp_remove_pattern (detected_patterns v)
    /\ confidence v = 0%float
    /\ (In dev_sell_pattern (detected_patterns v) <-> (3 < dev_sell_count h)%nat)
    /\ (risk_level v = MEDIUM <-> (3 < dev_sell_count h)%nat).
Proof.
  intros Hnum. eexists. split; [apply detect_interrupted, Hnum|].
  destruct (Nat.ltb_spec 3 (dev_sell_count h)) as [Hdev|Hdev];
    generalize dependent (dev_sell_count h); intros n Hdev;
    verdict_facts.
Qed.

Lemma non_numeric_amount_masks_liquidity_removal_witness :
  exists v : Verdict,
    detect_rug_patterns
      [record "lp_remove" 90; <["amount" := VNone]> (record "lp_remove" 0)] = Ok v
    /\ is_suspicious v = false
    /\ risk_level v <> HIGH.
Proof.
  assert (Hnum : numeric_amounts
            [record "lp_remove" 90; <["amount" := VNone]> (record "lp_remove" 0)]
          = false) by (vm_compute; reflexivity).
  destruct (non_numeric_amount_masks_liquidity_removal _ Hnum)
    as (v & Hv & Hs & Hl & _).
  exists v. split; [exact Hv|]. split; [exact Hs|exact Hl].
Defined.

(** X19. On every history at most two patterns are detected, each at most
    once and the dev-sell pattern first; the confidence is therefore 0.0,
    0.3 or 0.6 and the cap of 1.0 is never reached. *)
Theorem at_most_two_patterns (h : list (gmap string value)) :
  exists v : Verdict,
    detect_rug_patterns h = Ok v
    /\ (detected_patterns v = []
        \/ detected_patterns v = [dev_sell_pattern]
        \/ detected_patterns v = [lp_remove_pattern]
        \/ detected_patterns v = [dev_sell_pattern; lp_remove_pattern])
    /\ (confidence v = 0%float \/ confidence v = 0.3%float
        \/ confidence v = 0.6%float)
    /\ PrimFloat.ltb (confidence v) 1 = true.
Proof.
  destruct (detect_cases h) as [lp [Hv|[-> Hv]]];
    eexists; (split; [exact Hv|]);
    destruct (3 <? dev_sell_count h)%nat; try destruct lp;
    unfold verdict_of, interrupted_verdict; cbv zeta;
    cbn [detected_patterns confidence app length];
    repeat split; auto 6.
Qed.

(** ** The order of the records does not matter for [int] amounts *)

Lemma filter_permutation {A : Type} (f : A -> bool) (l l' : list A) :
  Permutation l l' -> Permutation (List.filter f l) (List.filter f l').
Proof.
  induction 1 as [|x l l' Hperm IH|x y l|l l' l'' H1 IH1 H2 IH2].
  - constructor.
  - cbn [List.filter]. destruct (f x); [constructor|]; exact IH.
  - cbn [List.filter]. destruct (f x), (f y); try reflexivity. constructor.
  - etransitivity; eassumption.
Qed.

Lemma sum_permutation (l l' : list Z) :
  Permutation l l' -> fold_right Z.add 0%Z l = fold_right Z.add 0%Z l'.
Proof.
  induction 1 as [|x l l' Hperm IH|x y l|l l' l'' H1 IH1 H2 IH2];
    cbn [fold_right]; lia.
Qed.

Lemma int_total_permutation (h h' : list (gmap string value)) :
  Permutation h h' -> int_total h = int_total h'.
Proof.
  intros Hperm. unfold int_total. apply sum_permutation.
  apply Permutation_map, filter_permutation, Hperm.
Qed.

Lemma int_amounts_permutation (h h' : list (gmap string value)) :
  Permutation h h' -> int_amounts h = true -> int_amounts h' = true.
Proof.
  unfold int_amounts. intros Hperm Hall.
  rewrite forallb_forall in *. intros t Ht. apply Hall.
  apply (Permutation_in t (Permutation_sym Hperm) Ht).
Qed.

(** X20. When the [lp_remove] amounts are [int]s, the verdict does not
    depend on the order of the records: two histories that are
    permutations of each other get the same result.  (Float amounts are
    added one after the other in binary64, and there the order can
    matter.) *)
Theorem detect_order_irrelevant (h h' : list (gmap string value)) :
  int_amounts h = true ->
  Permutation h h' ->
  detect_rug_patterns h = detect_rug_patterns h'.
Proof.
  intros Hint Hperm.
  rewrite (detect_ints h Hint).
  rewrite (detect_ints h' (int_amounts_permutation h h' Hperm Hint)).
  rewrite (int_total_permutation h h' Hperm). unfold dev_sell_count.
  rewrite (Permutation_length
             (filter_permutation (has_type "dev_sell") _ _ Hperm)).
  reflexivity.
Qed.

Lemma detect_order_irrelevant_witness :
  detect_rug_patterns [record "lp_remove" 60; record "dev_sell" 5]
  = detect_rug_patterns [record "dev_sell" 5; record "lp_remove" 60].
Proof.
  apply (detect_order_irrelevant
           [record "lp_remove" 60; record "dev_sell" 5]
           [record "dev_sell" 5; record "lp_remove" 60]).
  - reflexivity.
  - apply perm_swap.
Defined.

(** ** [extract_twitter_handle] *)

Section HandleFacts.

Context {char : Type}.
Variable is_at : char -> bool.
Variable is_word_char : char -> bool.

Lemma word_run_spec (n : nat) (text : list char) :
  exists post : list char,
    text = (word_run is_word_char n text ++ post)%list
    /\ forallb is_word_char (word_run is_word_char n text) = true
    /\ (length (word_run is_word_char n text) <= n)%nat
    /\ (length (word_run is_word_char n text) = n
        \/ post = []
        \/ exists c post', post = c :: post' /\ is_word_char c = false).
Proof.
  revert text. induction n as [|n IH]; intros text.
  - exists text. destruct text; cbn; auto.
  - destruct text as [|c rest];
      [exists []; cbn; repeat split; [lia|right; left; reflexivity]|].
    cbn [word_run]. destruct (is_word_char c) eqn:Hc.
    + destruct (IH rest) as (post & Heq & Hall & Hlen & Hmax).
      exists post. cbn [app forallb length]. rewrite Hc, Hall.
      split; [congruence|]. split; [reflexivity|]. split; [lia|].
      destruct Hmax as [H|[H|H]]; [left; lia|auto..].
    + exists (c :: rest). cbn. split; [reflexivity|]. split; [reflexivity|].
      split; [lia|]. right. right. eauto.
Qed.

Lemma no_handle_cons (c : char) (rest : list char) :
  (is_at c = true -> word_run is_word_char 15 rest = []) ->
  no_handle is_at is_word_char rest -> no_handle is_at is_word_char (c :: rest).
Proof.
  intros Hc Hrest pre a b post Heq Ha.
  destruct pre as [|p pre]; cbn [app] in Heq; injection Heq as -> ->.
  - specialize (Hc Ha). cbn [word_run] in Hc.
    destruct (is_word_char b); [discriminate|reflexivity].
  - exact (Hrest pre a b post eq_refl Ha).
Qed.

Lemma no_handle_tail (c : char) (rest : list char) :
  no_handle is_at is_word_char (c :: rest) -> no_handle is_at is_word_char rest.
Proof.
  intros H pre a b post Heq Ha. apply (H (c :: pre) a b post); [|exact Ha].
  cbn [app]. rewrite Heq. reflexivity.
Qed.

Lemma word_run_nil_no_handle (a c : char) (rest : list char) :
  is_at a = true -> word_run is_word_char 15 (c :: rest) <> [] ->
  ~ no_handle is_at is_word_char (a :: c :: rest).
Proof.
  intros Ha Hrun Hno. specialize (Hno [] a c rest eq_refl Ha).
  cbn [word_run] in Hrun. rewrite Hno in Hrun. congruence.
Qed.

(** X21. When a handle is found, it is what follows the leftmost ['@']
    that is directly followed by a word character: between 1 and 15 word
    characters, as many as the text offers -- a longer name is cut after
    its 15th character without notice. *)
Theorem extract_twitter_handle_found (text handle : list char) :
  extract_twitter_handle is_at is_word_char text = Some handle ->
  (1 <= length handle <= 15)%nat
  /\ forallb is_word_char handle = true
  /\ exists (pre : list char) (a : char) (post : list char),
      text = (pre ++ a :: handle ++ post)%list
      /\ is_at a = true
      /\ no_handle is_at is_word_char (pre ++ [a])%list
      /\ (length handle = 15%nat
          \/ post = []
          \/ exists c post', post = c :: post' /\ is_word_char c = false).
Proof.
  revert handle. induction text as [|c rest IH]; intros handle Hfound;
    [discriminate|].
  cbn [extract_twitter_handle] in Hfound.
  assert (Hrec : extract_twitter_handle is_at is_word_char rest = Some handle ->
    (is_at c = true -> word_run is_word_char 15 rest = []) ->
    (1 <= length handle <= 15)%nat
    /\ forallb is_word_char handle = true
    /\ exists pre a post,
        (c :: rest) = (pre ++ a :: handle ++ post)%list
        /\ is_at a = true
        /\ no_handle is_at is_word_char (pre ++ [a])%list
        /\ (length handle = 15%nat \/ post = []
            \/ exists c post', post = c :: post' /\ is_word_char c = false)).
  { intros Hrest Hc.
    destruct (IH handle Hrest) as (Hlen & Hall & pre & a & post & Heq & Ha & Hno & Hmax).
    split; [exact Hlen|]. split; [exact Hall|].
    exists (c :: pre), a, post. cbn [app]. rewrite Heq.
    split; [reflexivity|]. split; [exact Ha|]. split; [|exact Hmax].
    apply no_handle_cons; [|exact Hno].
    intros Hat. specialize (Hc Hat).
    destruct pre as [|p pre]; cbn [app].
    - cbn [word_run]. destruct (is_word_char a) eqn:Hw; [|reflexivity].
      rewrite Heq in Hc. cbn [app word_run] in Hc. rewrite Hw in Hc. discriminate.
    - rewrite Heq in Hc. cbn [app word_run] in Hc. cbn [word_run].
      destruct (is_word_char p); [discriminate|reflexivity]. }
  destruct (is_at c) eqn:Hat; [|apply Hrec; [exact Hfound|discriminate]].
  destruct (word_run is_word_char 15 rest) as [|w run] eqn:Hrun;
    [apply Hrec; [exact Hfound|reflexivity]|].
  injection Hfound as <-. clear Hrec IH.
  destruct (word_run_spec 15 rest) as (post & Heq & Hall & Hlen & Hmax).
  rewrite Hrun in *. split; [cbn [length] in *; lia|]. split; [exact Hall|].
  exists [], c, post. split; [cbn [app]; f_equal; exact Heq|].
  split; [exact Hat|].
  split; [|exact Hmax].
  intros pre a b post' Heq' _. destruct pre as [|p [|p' pre]]; discriminate.
Qed.

(** X22. [None] is returned exactly when no ['@'] of the text is directly
    followed by a word character -- in particular for a text without
    ['@'], and for the empty text. *)
Theorem extract_twitter_handle_none (text : list char) :
  extract_twitter_handle is_at is_word_char text = None <-> no_handle is_at is_word_char text.
Proof.
  induction text as [|c rest IH].
  - split; [|reflexivity]. intros _ pre a b post Heq.
    destruct pre; discriminate.
  - cbn [extract_twitter_handle]. destruct (is_at c) eqn:Hat.
    + destruct (word_run is_word_char 15 rest) as [|w run] eqn:Hrun.
      * rewrite IH. split; [|apply no_handle_tail].
        intros Hrest. apply no_handle_cons; [intros _; exact Hrun|exact Hrest].
      * split; [discriminate|]. intros Hno. exfalso.
        destruct rest as [|b rest]; [discriminate|].
        apply (word_run_nil_no_handle c b rest Hat); [|exact Hno].
        rewrite Hrun. discriminate.
    + rewrite IH. split; [|apply no_handle_tail].
      intros Hrest. apply no_handle_cons; [|exact Hrest].
      rewrite Hat. discriminate.
Qed.

End HandleFacts.

Lemma extract_twitter_handle_found_witness :
  (1 <= length (chars_of "soly_bot") <= 15)%nat
  /\ forallb ascii_is_word_char (chars_of "soly_bot") = true.
Proof.
  destruct (extract_twitter_handle_found ascii_is_at ascii_is_word_char
              (chars_of "gm @ all, ask @soly_bot!") (chars_of "soly_bot") eq_refl)
    as (Hlen & Hall & _).
  split; [exact Hlen|exact Hall].
Defined.
